(** * MSM cpufreq driver: a shallow embedding of arch/arm/mach-msm/cpufreq.c

    The driver is sequential C code around a handful of kernel services
    (clock driver, scheduler, notifier chain, workqueue, completion, mutex).
    Each C function becomes a computation in a small state monad whose state
    holds the per-cpu data of the driver, the task executing the code, the
    opaque state of the collaborators, and a trace of the calls made to them.
    A computation either returns or halts: it halts when the thread of control
    blocks for ever (a mutex it already holds, a completion nobody signals) or
    when the C code would dereference an invalid pointer.

    Integers: frequencies, priorities and return codes are C [int] or
    [unsigned int]; the driver only copies and compares them (the comparisons
    of frequencies are all made at [unsigned int]), so they are kept as [Z]
    values.  The one product, the transition latency, wraps at 32 bits. *)

From Stdlib Require Import ZArith NArith List Bool Lia.
Import ListNotations.
Local Open Scope Z_scope.

(** ** Constants of the kernel headers *)

Definition ENOMEM : Z := 12.
Definition EFAULT : Z := 14.
Definition ENODEV : Z := 19.
Definition EINVAL : Z := 22.

Definition SCHED_FIFO : Z := 1.
Definition MAX_RT_PRIO : Z := 100.

Definition CPUFREQ_PRECHANGE : Z := 0.
Definition CPUFREQ_POSTCHANGE : Z := 1.

Definition CPUFREQ_RELATION_L : Z := 0.
Definition CPUFREQ_RELATION_H : Z := 1.

Definition NSEC_PER_USEC : Z := 1000.

Definition NOTIFY_OK : Z := 1.

Definition CPU_ONLINE : Z := 2.
Definition CPU_DOWN_PREPARE : Z := 5.
Definition CPU_DOWN_FAILED : Z := 6.
Definition CPU_TASKS_FROZEN : Z := 16.
Definition CPU_ONLINE_FROZEN : Z := Z.lor CPU_ONLINE CPU_TASKS_FROZEN.
Definition CPU_DOWN_PREPARE_FROZEN : Z := Z.lor CPU_DOWN_PREPARE CPU_TASKS_FROZEN.
Definition CPU_DOWN_FAILED_FROZEN : Z := Z.lor CPU_DOWN_FAILED CPU_TASKS_FROZEN.

(** ** Data *)

(** A cpumask is a bitmap, bit [c] standing for cpu [c]. *)
Definition cpumask := N.

Definition cpumask_clear : cpumask := 0%N.
Definition cpumask_set_cpu (c : nat) (m : cpumask) : cpumask := N.setbit m (N.of_nat c).
Definition cpumask_equal (a b : cpumask) : bool := N.eqb a b.
Definition cpumask_setall (nbits : N) : cpumask := N.ones nbits.

(** The fields of [struct task_struct] the driver touches. *)
Record task_struct := {
  policy : Z;
  rt_priority : Z;
  cpus_allowed : cpumask
}.

(** The fields of [struct cpufreq_policy] the driver touches. *)
Record cpufreq_policy := {
  cpu : nat;
  cur : Z;
  min : Z;
  max : Z;
  cpuinfo_min_freq : Z;
  cpuinfo_max_freq : Z;
  cpuinfo_transition_latency : Z;
  cpus : cpumask
}.

Record cpufreq_freqs := {
  freqs_cpu : nat;
  old : Z;
  new : Z
}.

(** [struct cpufreq_work_struct].  The work descriptor is kept by the cpu on
    whose queue it is pending, if any; its handler is [set_cpu_work], the only
    one [INIT_WORK] ever installs.  The completion is kept by its [done]
    counter.  [work_policy] is a pointer: [None] is the NULL of the zeroed
    per-cpu area. *)
Record cpufreq_work_struct := {
  work : option nat;
  work_policy : option cpufreq_policy;
  complete : nat;
  frequency : Z;
  status : Z
}.

(** [struct cpufreq_suspend_t].  [suspend_mutex] tells whether the thread of
    control followed here holds the mutex. *)
Record cpufreq_suspend_t := {
  suspend_mutex : bool;
  device_suspended : Z
}.

(** Calls made to the collaborators, in the order they are made. *)
Inductive event :=
| Esched_setscheduler (pol prio : Z)
| Ecpufreq_notify_transition (freqs : cpufreq_freqs) (phase : Z)
| Eacpuclk_set_rate (c : nat) (rate : Z)
| Emutex_lock (c : nat)
| Emutex_unlock (c : nat)
| Edevice_suspended (c : nat) (v : Z)
| Ecancel_work_sync (c : nat)
| EINIT_COMPLETION (c : nat)
| Equeue_work_on (on c : nat)
| Ewait_for_completion (c : nat)
| Ecomplete (c : nat).

(** The collaborators the driver calls into.  [hw] is their state, opaque to
    the driver: clock hardware, allocator, hotplug masks, notifier chain. *)
Record platform := {
  hw : Type;
  acpuclk_set_rate : nat -> Z -> hw -> Z * hw;
  acpuclk_get_rate : nat -> hw -> Z;
  acpuclk_get_switch_time : hw -> Z;
  cpu_active : nat -> hw -> bool;
  alloc_cpumask_var : hw -> bool * hw;
  free_cpumask_var : hw -> hw;
  notify_transition : cpufreq_freqs -> Z -> hw -> hw;
  cpufreq_frequency_get_table : nat -> hw -> option (list Z);
  cpufreq_frequency_table_target : cpufreq_policy -> list Z -> Z -> Z -> option nat;
  cpufreq_frequency_table_cpuinfo : cpufreq_policy -> list Z -> Z * cpufreq_policy;
  cpu_is_msm8625 : bool;
  nr_cpumask_bits : N;
  possible_cpus : list nat;
  CONFIG_MSM_CPU_FREQ_SET_MIN_MAX : option (Z * Z)
}.

Definition upd {A : Type} (f : nat -> A) (c : nat) (v : A) : nat -> A :=
  fun c' => if Nat.eqb c' c then v else f c'.

Section Driver.

Variable P : platform.

Record state := {
  hw_state : hw P;
  current : task_struct;
  kworker : nat -> task_struct;
  cpufreq_work : nat -> cpufreq_work_struct;
  cpufreq_suspend : nat -> cpufreq_suspend_t;
  trace : list event
}.

(** *** The monad *)

Inductive halt := Blocked | Oops.

Inductive result (A : Type) :=
| Ret (a : A) (s : state)
| Halt (h : halt) (s : state).
Arguments Ret {A} a s.
Arguments Halt {A} h s.

Definition M (A : Type) := state -> result A.

Definition ret {A} (a : A) : M A := fun s => Ret a s.

Definition bind {A B} (m : M A) (k : A -> M B) : M B :=
  fun s => match m s with
           | Ret a s' => k a s'
           | Halt h s' => Halt h s'
           end.

Definition stop {A} (h : halt) : M A := fun s => Halt h s.

Notation "x <- m ;; k" := (bind m (fun x => k))
  (at level 100, m at next level, right associativity).
Notation "m ;; k" := (bind m (fun _ => k))
  (at level 100, right associativity).

Definition gets {A} (f : state -> A) : M A := fun s => Ret (f s) s.
Definition modify (f : state -> state) : M unit := fun s => Ret tt (f s).

Definition with_hw (h : hw P) (s : state) : state :=
  {| hw_state := h; current := current s; kworker := kworker s;
     cpufreq_work := cpufreq_work s; cpufreq_suspend := cpufreq_suspend s;
     trace := trace s |}.
Definition with_current (t : task_struct) (s : state) : state :=
  {| hw_state := hw_state s; current := t; kworker := kworker s;
     cpufreq_work := cpufreq_work s; cpufreq_suspend := cpufreq_suspend s;
     trace := trace s |}.
Definition with_kworker (k : nat -> task_struct) (s : state) : state :=
  {| hw_state := hw_state s; current := current s; kworker := k;
     cpufreq_work := cpufreq_work s; cpufreq_suspend := cpufreq_suspend s;
     trace := trace s |}.
Definition with_work (c : nat) (w : cpufreq_work_struct) (s : state) : state :=
  {| hw_state := hw_state s; current := current s; kworker := kworker s;
     cpufreq_work := upd (cpufreq_work s) c w; cpufreq_suspend := cpufreq_suspend s;
     trace := trace s |}.
Definition with_suspend (c : nat) (x : cpufreq_suspend_t) (s : state) : state :=
  {| hw_state := hw_state s; current := current s; kworker := kworker s;
     cpufreq_work := cpufreq_work s; cpufreq_suspend := upd (cpufreq_suspend s) c x;
     trace := trace s |}.
Definition with_trace (t : list event) (s : state) : state :=
  {| hw_state := hw_state s; current := current s; kworker := kworker s;
     cpufreq_work := cpufreq_work s; cpufreq_suspend := cpufreq_suspend s;
     trace := t |}.

Definition emit (e : event) : M unit :=
  modify (fun s => with_trace (trace s ++ [e]) s).

(** *** Kernel services *)

(** Scheduler: gives the running task the class and priority asked for.  The
    driver ignores its return value. *)
Definition sched_setscheduler_nocheck (pol prio : Z) : M unit :=
  emit (Esched_setscheduler pol prio) ;;
  modify (fun s =>
    with_current {| policy := pol; rt_priority := prio;
                    cpus_allowed := cpus_allowed (current s) |} s).

Definition cpufreq_notify_transition (freqs : cpufreq_freqs) (phase : Z) : M unit :=
  emit (Ecpufreq_notify_transition freqs phase) ;;
  modify (fun s => with_hw (notify_transition P freqs phase (hw_state s)) s).

Definition do_acpuclk_set_rate (c : nat) (rate : Z) : M Z :=
  emit (Eacpuclk_set_rate c rate) ;;
  fun s => let rh := acpuclk_set_rate P c rate (hw_state s) in
           Ret (fst rh) (with_hw (snd rh) s).

(** *** set_cpu_freq *)

Definition set_cpu_freq (pol : cpufreq_policy) (new_freq : Z) : M Z :=
  let saved_sched_policy := - EINVAL in
  let saved_sched_rt_prio := - EINVAL in
  let freqs := {| freqs_cpu := cpu pol; old := cur pol; new := new_freq |} in
  task <- gets current ;;
  saved <-
    (if (new freqs >? old freqs) && negb (policy task =? SCHED_FIFO) then
       sched_setscheduler_nocheck SCHED_FIFO (MAX_RT_PRIO - 1) ;;
       ret (policy task, rt_priority task)
     else ret (saved_sched_policy, saved_sched_rt_prio)) ;;
  let saved_sched_policy := fst saved in
  let saved_sched_rt_prio := snd saved in
  cpufreq_notify_transition freqs CPUFREQ_PRECHANGE ;;
  r <- do_acpuclk_set_rate (cpu pol) new_freq ;;
  (if r =? 0 then cpufreq_notify_transition freqs CPUFREQ_POSTCHANGE else ret tt) ;;
  (if (new freqs >? old freqs) && (saved_sched_policy >=? 0) then
     sched_setscheduler_nocheck saved_sched_policy saved_sched_rt_prio
   else ret tt) ;;
  ret r.

(** *** Mutex, workqueue and completion *)

(** [mutex_lock] on a mutex the thread already holds never returns. *)
Definition mutex_lock (c : nat) : M unit :=
  x <- gets (fun s => cpufreq_suspend s c) ;;
  if suspend_mutex x then stop Blocked
  else
    emit (Emutex_lock c) ;;
    modify (with_suspend c {| suspend_mutex := true;
                              device_suspended := device_suspended x |}).

Definition mutex_unlock (c : nat) : M unit :=
  x <- gets (fun s => cpufreq_suspend s c) ;;
  emit (Emutex_unlock c) ;;
  modify (with_suspend c {| suspend_mutex := false;
                            device_suspended := device_suspended x |}).

(** A plain store to [per_cpu(cpufreq_suspend, c).device_suspended]. *)
Definition store_device_suspended (c : nat) (v : Z) : M unit :=
  x <- gets (fun s => cpufreq_suspend s c) ;;
  emit (Edevice_suspended c v) ;;
  modify (with_suspend c {| suspend_mutex := suspend_mutex x;
                            device_suspended := v |}).

Definition set_work (c : nat) (f : cpufreq_work_struct -> cpufreq_work_struct) : M unit :=
  modify (fun s => with_work c (f (cpufreq_work s c)) s).

Definition put_work (v : option nat) (w : cpufreq_work_struct) :=
  {| work := v; work_policy := work_policy w; complete := complete w;
     frequency := frequency w; status := status w |}.
Definition put_policy (v : option cpufreq_policy) (w : cpufreq_work_struct) :=
  {| work := work w; work_policy := v; complete := complete w;
     frequency := frequency w; status := status w |}.
Definition put_complete (v : nat) (w : cpufreq_work_struct) :=
  {| work := work w; work_policy := work_policy w; complete := v;
     frequency := frequency w; status := status w |}.
Definition put_frequency (v : Z) (w : cpufreq_work_struct) :=
  {| work := work w; work_policy := work_policy w; complete := complete w;
     frequency := v; status := status w |}.
Definition put_status (v : Z) (w : cpufreq_work_struct) :=
  {| work := work w; work_policy := work_policy w; complete := complete w;
     frequency := frequency w; status := v |}.

(** No work runs while the caller does, so cancelling and joining comes to
    taking the descriptor off its queue. *)
Definition cancel_work_sync (c : nat) : M unit :=
  emit (Ecancel_work_sync c) ;;
  set_work c (put_work None).

Definition INIT_WORK (c : nat) : M unit := set_work c (put_work None).

Definition init_completion (c : nat) : M unit := set_work c (put_complete 0%nat).

Definition INIT_COMPLETION (c : nat) : M unit :=
  emit (EINIT_COMPLETION c) ;;
  set_work c (put_complete 0%nat).

(** Queues the descriptor of cpu [c] on cpu [on], unless it is pending. *)
Definition queue_work_on (on c : nat) : M unit :=
  emit (Equeue_work_on on c) ;;
  set_work c (fun w => match work w with
                       | None => put_work (Some on) w
                       | Some _ => w
                       end).

Definition do_complete (c : nat) : M unit :=
  emit (Ecomplete c) ;;
  set_work c (fun w => put_complete (S (complete w)) w).

(** *** set_cpu_work *)

Definition set_cpu_work (c : nat) : M unit :=
  cpu_work <- gets (fun s => cpufreq_work s c) ;;
  match work_policy cpu_work with
  | None => stop Oops
  | Some pol =>
      r <- set_cpu_freq pol (frequency cpu_work) ;;
      set_work c (put_status r) ;;
      do_complete c
  end.

(** The worker of cpu [on] takes the descriptor of cpu [c] off its queue and
    runs the handler as its own task. *)
Definition worker_thread (on c : nat) : M unit :=
  fun s =>
    let caller := current s in
    match (set_work c (put_work None) ;; set_cpu_work c)
            (with_current (kworker s on) s) with
    | Ret _ s' =>
        Ret tt (with_current caller (with_kworker (upd (kworker s') on (current s')) s'))
    | Halt h s' => Halt h s'
    end.

(** The caller sleeps; whatever is pending runs; the caller wakes if the
    completion was signalled, and stays asleep otherwise. *)
Definition wait_for_completion (c : nat) : M unit :=
  emit (Ewait_for_completion c) ;;
  w <- gets (fun s => cpufreq_work s c) ;;
  (match complete w, work w with
   | O, Some on => worker_thread on c
   | _, _ => ret tt
   end) ;;
  w <- gets (fun s => cpufreq_work s c) ;;
  match complete w with
  | O => stop Blocked
  | S n => set_work c (put_complete n)
  end.

(** *** msm_cpufreq_target *)

(** [table[index].frequency]; an index past the table is an invalid read. *)
Definition table_frequency (table : list Z) (index : nat) : M Z :=
  match nth_error table index with
  | Some f => ret f
  | None => stop Oops
  end.

Definition msm_cpufreq_target (pol : cpufreq_policy) (target_freq relation : Z) : M Z :=
  active <- gets (fun s => cpu_active P (cpu pol) (hw_state s)) ;;
  if negb active then ret (- ENODEV)
  else
    allocated <- (fun s => let ok := alloc_cpumask_var P (hw_state s) in
                           Ret (fst ok) (with_hw (snd ok) s)) ;;
    if negb allocated then ret (- ENOMEM)
    else
      mutex_lock (cpu pol) ;;
      r <-
        (x <- gets (fun s => cpufreq_suspend s (cpu pol)) ;;
         if negb (device_suspended x =? 0) then ret (- EFAULT)
         else
           table <- gets (fun s => cpufreq_frequency_get_table P (cpu pol) (hw_state s)) ;;
           match table with
           | None => stop Oops
           | Some table =>
               match cpufreq_frequency_table_target P pol table target_freq relation with
               | None => ret (- EINVAL)
               | Some index =>
                   f <- table_frequency table index ;;
                   set_work (cpu pol) (put_policy (Some pol)) ;;
                   set_work (cpu pol) (put_frequency f) ;;
                   set_work (cpu pol) (put_status (- ENODEV)) ;;
                   let mask := cpumask_set_cpu (cpu pol) cpumask_clear in
                   task <- gets current ;;
                   if cpumask_equal mask (cpus_allowed task) then
                     cpu_work <- gets (fun s => cpufreq_work s (cpu pol)) ;;
                     match work_policy cpu_work with
                     | None => stop Oops
                     | Some p => set_cpu_freq p (frequency cpu_work)
                     end
                   else
                     cancel_work_sync (cpu pol) ;;
                     INIT_COMPLETION (cpu pol) ;;
                     queue_work_on (cpu pol) (cpu pol) ;;
                     wait_for_completion (cpu pol) ;;
                     gets (fun s => status (cpufreq_work s (cpu pol)))
               end
           end) ;;
      (* done: *)
      modify (fun s => with_hw (free_cpumask_var P (hw_state s)) s) ;;
      mutex_unlock (cpu pol) ;;
      ret r.

(** *** msm_cpufreq_init *)

Definition put_cpus (v : cpumask) (p : cpufreq_policy) :=
  {| cpu := cpu p; cur := cur p; min := min p; max := max p;
     cpuinfo_min_freq := cpuinfo_min_freq p; cpuinfo_max_freq := cpuinfo_max_freq p;
     cpuinfo_transition_latency := cpuinfo_transition_latency p; cpus := v |}.
Definition put_cpuinfo_min_max (lo hi : Z) (p : cpufreq_policy) :=
  {| cpu := cpu p; cur := cur p; min := min p; max := max p;
     cpuinfo_min_freq := lo; cpuinfo_max_freq := hi;
     cpuinfo_transition_latency := cpuinfo_transition_latency p; cpus := cpus p |}.
Definition put_min_max (lo hi : Z) (p : cpufreq_policy) :=
  {| cpu := cpu p; cur := cur p; min := lo; max := hi;
     cpuinfo_min_freq := cpuinfo_min_freq p; cpuinfo_max_freq := cpuinfo_max_freq p;
     cpuinfo_transition_latency := cpuinfo_transition_latency p; cpus := cpus p |}.
Definition put_cur (v : Z) (p : cpufreq_policy) :=
  {| cpu := cpu p; cur := v; min := min p; max := max p;
     cpuinfo_min_freq := cpuinfo_min_freq p; cpuinfo_max_freq := cpuinfo_max_freq p;
     cpuinfo_transition_latency := cpuinfo_transition_latency p; cpus := cpus p |}.
Definition put_transition_latency (v : Z) (p : cpufreq_policy) :=
  {| cpu := cpu p; cur := cur p; min := min p; max := max p;
     cpuinfo_min_freq := cpuinfo_min_freq p; cpuinfo_max_freq := cpuinfo_max_freq p;
     cpuinfo_transition_latency := v; cpus := cpus p |}.

(** The part of [msm_cpufreq_init] before the current rate is read: the
    policy as the table and the configuration leave it. *)
Definition init_limits (pol : cpufreq_policy) (table : list Z) : cpufreq_policy :=
  let pol := if cpu_is_msm8625 P then put_cpus (cpumask_setall (nr_cpumask_bits P)) pol
             else pol in
  let '(err, pol) := cpufreq_frequency_table_cpuinfo P pol table in
  let pol := if negb (err =? 0) then
               match CONFIG_MSM_CPU_FREQ_SET_MIN_MAX P with
               | Some (lo, hi) => put_cpuinfo_min_max lo hi pol
               | None => pol
               end
             else pol in
  match CONFIG_MSM_CPU_FREQ_SET_MIN_MAX P with
  | Some (lo, hi) => put_min_max lo hi pol
  | None => pol
  end.

(** The two lookups of [msm_cpufreq_init], the second made only when the
    first fails. *)
Definition init_index (pol : cpufreq_policy) (table : list Z) (cur_freq : Z) : option nat :=
  match cpufreq_frequency_table_target P pol table cur_freq CPUFREQ_RELATION_H with
  | Some index => Some index
  | None => cpufreq_frequency_table_target P pol table cur_freq CPUFREQ_RELATION_L
  end.

(** The policy is the caller's, passed by pointer: the function returns it
    as it leaves it, next to the C return value. *)
Definition msm_cpufreq_init (pol : cpufreq_policy) : M (Z * cpufreq_policy) :=
  table <- gets (fun s => cpufreq_frequency_get_table P (cpu pol) (hw_state s)) ;;
  match table with
  | None => ret (- ENODEV, pol)
  | Some table =>
      let pol := init_limits pol table in
      cur_freq <- gets (fun s => acpuclk_get_rate P (cpu pol) (hw_state s)) ;;
      match init_index pol table cur_freq with
      | None => ret (- EINVAL, pol)
      | Some index =>
          f <- table_frequency table index ;;
          normalised <-
            (if negb (cur_freq =? f) then
               r <- do_acpuclk_set_rate (cpu pol) f ;;
               if negb (r =? 0) then ret (inl r) else ret (inr f)
             else ret (inr cur_freq)) ;;
          match normalised with
          | inl r => ret (r, pol)
          | inr cur_freq =>
              let pol := put_cur cur_freq pol in
              t <- gets (fun s => acpuclk_get_switch_time P (hw_state s)) ;;
              let pol := put_transition_latency ((t * NSEC_PER_USEC) mod 2 ^ 32) pol in
              INIT_WORK (cpu pol) ;;
              init_completion (cpu pol) ;;
              ret (0, pol)
          end
      end
  end.

(** *** Hotplug notifier, suspend and resume *)

Definition msm_cpufreq_cpu_callback (action : Z) (hcpu : nat) : M Z :=
  (if (action =? CPU_ONLINE) || (action =? CPU_ONLINE_FROZEN) then
     store_device_suspended hcpu 0
   else if (action =? CPU_DOWN_PREPARE) || (action =? CPU_DOWN_PREPARE_FROZEN) then
     mutex_lock hcpu ;;
     store_device_suspended hcpu 1 ;;
     mutex_unlock hcpu
   else if (action =? CPU_DOWN_FAILED) || (action =? CPU_DOWN_FAILED_FROZEN) then
     store_device_suspended hcpu 0
   else ret tt) ;;
  ret NOTIFY_OK.

Fixpoint for_each_cpu (l : list nat) (body : nat -> M unit) : M unit :=
  match l with
  | [] => ret tt
  | c :: l' => body c ;; for_each_cpu l' body
  end.

Definition msm_cpufreq_suspend (pol : cpufreq_policy) : M Z :=
  for_each_cpu (possible_cpus P) (fun c => store_device_suspended c 1) ;;
  ret 0.

Definition msm_cpufreq_resume (pol : cpufreq_policy) : M Z :=
  for_each_cpu (possible_cpus P) (fun c => store_device_suspended c 0) ;;
  ret 0.

(** *** msm_cpufreq_get_freq *)

Definition msm_cpufreq_get_freq (c : nat) : M Z :=
  gets (fun s => acpuclk_get_rate P c (hw_state s)).

(** *** msm_cpufreq_register *)

(** [mutex_init]: the mutex starts out free. *)
Definition mutex_init (c : nat) : M unit :=
  x <- gets (fun s => cpufreq_suspend s c) ;;
  modify (with_suspend c {| suspend_mutex := false;
                            device_suspended := device_suspended x |}).

(** [create_workqueue] and [register_hotcpu_notifier] act on the kernel's own
    state and do not call into the driver; [cpufreq_register_driver] calls the
    driver back (its [init] for the cpus that are up), so it is any
    computation.  The workqueue pointer is not kept: the driver never tests
    it. *)
Definition msm_cpufreq_register
    (create_workqueue register_hotcpu_notifier : hw P -> hw P)
    (cpufreq_register_driver : M Z) : M Z :=
  for_each_cpu (possible_cpus P)
    (fun c => mutex_init c ;; store_device_suspended c 0) ;;
  modify (fun s => with_hw (create_workqueue (hw_state s)) s) ;;
  modify (fun s => with_hw (register_hotcpu_notifier (hw_state s)) s) ;;
  cpufreq_register_driver.

End Driver.

Arguments Ret {P A} a s.
Arguments Halt {P A} h s.
Arguments hw_state {P} s.
Arguments current {P} s.
Arguments kworker {P} s c.
Arguments cpufreq_work {P} s c.
Arguments cpufreq_suspend {P} s c.
Arguments trace {P} s.
Arguments with_hw {P} h s.
Arguments with_current {P} t s.
Arguments with_kworker {P} k s.
Arguments with_work {P} c w s.
Arguments with_suspend {P} c x s.
Arguments with_trace {P} t s.
Arguments set_cpu_freq {P} pol new_freq s.
Arguments set_cpu_work {P} c s.
Arguments worker_thread {P} on c s.
Arguments wait_for_completion {P} c s.
Arguments msm_cpufreq_target {P} pol target_freq relation s.
Arguments msm_cpufreq_init {P} pol s.
Arguments msm_cpufreq_cpu_callback {P} action hcpu s.
Arguments msm_cpufreq_suspend {P} pol s.
Arguments msm_cpufreq_resume {P} pol s.
Arguments msm_cpufreq_get_freq {P} c s.
Arguments msm_cpufreq_register {P} create_workqueue register_hotcpu_notifier
  cpufreq_register_driver s.

(** ** The table lookup *)

(** Modelled from the spec: [cpufreq_frequency_table_target] (the Frequency
    Table Resolver, drivers/cpufreq/freq_table.c) and the meaning of the two
    relation constants (include/linux/cpufreq.h) are not among the sources.
    The resolver rounds down to the nearest entry at or below the target, or
    up to the nearest entry at or above it, and fails when no entry satisfies
    the relation.  [CPUFREQ_RELATION_H] asks for the highest frequency at or
    below the target (round down), [CPUFREQ_RELATION_L] for the lowest at or
    above it (round up). *)
Fixpoint resolve_from (down : bool) (target : Z) (table : list Z) (i : nat)
    (best : option (nat * Z)) : option (nat * Z) :=
  match table with
  | [] => best
  | f :: rest =>
      let fits := if down then f <=? target else target <=? f in
      let closer := match best with
                    | None => true
                    | Some (_, b) => if down then b <? f else f <? b
                    end in
      resolve_from down target rest (S i)
        (if fits && closer then Some (i, f) else best)
  end.

Definition resolve (table : list Z) (target relation : Z) : option nat :=
  if relation =? CPUFREQ_RELATION_H then
    option_map fst (resolve_from true target table 0 None)
  else if relation =? CPUFREQ_RELATION_L then
    option_map fst (resolve_from false target table 0 None)
  else None.

(** ** A board to run the driver on *)

(** Two cores on one clock; the clock driver either takes every rate or
    rejects every rate with [clk_error]. *)
Record board := {
  clk_rate : Z;
  clk_error : Z;
  active : cpumask;
  mem_ok : bool
}.

Definition board_limits (pol : cpufreq_policy) (table : list Z) : Z * cpufreq_policy :=
  match table with
  | [] => (- EINVAL, pol)
  | f :: rest =>
      let lo := fold_right Z.min f rest in
      let hi := fold_right Z.max f rest in
      (0, put_min_max lo hi (put_cpuinfo_min_max lo hi pol))
  end.

Definition msm_board (table : option (list Z)) : platform := {|
  hw := board;
  acpuclk_set_rate := fun _ rate h =>
    if clk_error h =? 0
    then (0, {| clk_rate := rate; clk_error := 0; active := active h; mem_ok := mem_ok h |})
    else (clk_error h, h);
  acpuclk_get_rate := fun _ h => clk_rate h;
  acpuclk_get_switch_time := fun _ => 50;
  cpu_active := fun c h => N.testbit (active h) (N.of_nat c);
  alloc_cpumask_var := fun h => (mem_ok h, h);
  free_cpumask_var := fun h => h;
  notify_transition := fun _ _ h => h;
  cpufreq_frequency_get_table := fun _ _ => table;
  cpufreq_frequency_table_target := fun _ t target relation => resolve t target relation;
  cpufreq_frequency_table_cpuinfo := board_limits;
  cpu_is_msm8625 := false;
  nr_cpumask_bits := 2%N;
  possible_cpus := [0%nat; 1%nat];
  CONFIG_MSM_CPU_FREQ_SET_MIN_MAX := None
|}.

Definition mhz : option (list Z) := Some [300; 600; 900].

(** The same board built with [CONFIG_MSM_CPU_FREQ_SET_MIN_MAX]. *)
Definition msm_board_limits (table : option (list Z)) (lo hi : Z) : platform := {|
  hw := board;
  acpuclk_set_rate := acpuclk_set_rate (msm_board table);
  acpuclk_get_rate := acpuclk_get_rate (msm_board table);
  acpuclk_get_switch_time := acpuclk_get_switch_time (msm_board table);
  cpu_active := cpu_active (msm_board table);
  alloc_cpumask_var := alloc_cpumask_var (msm_board table);
  free_cpumask_var := free_cpumask_var (msm_board table);
  notify_transition := notify_transition (msm_board table);
  cpufreq_frequency_get_table := cpufreq_frequency_get_table (msm_board table);
  cpufreq_frequency_table_target := cpufreq_frequency_table_target (msm_board table);
  cpufreq_frequency_table_cpuinfo := cpufreq_frequency_table_cpuinfo (msm_board table);
  cpu_is_msm8625 := false;
  nr_cpumask_bits := 2%N;
  possible_cpus := [0%nat; 1%nat];
  CONFIG_MSM_CPU_FREQ_SET_MIN_MAX := Some (lo, hi)
|}.

Definition idle_work : cpufreq_work_struct :=
  {| work := None; work_policy := None; complete := 0%nat; frequency := 0; status := 0 |}.

(** The state the driver is in after registration: nothing suspended, no
    mutex held, nothing queued.  The workers are ordinary tasks (class 0)
    bound to their cpu. *)
Definition boot (table : option (list Z)) (h : board) (task : task_struct)
    (suspended : nat -> Z) : state (msm_board table) :=
  {| hw_state := (h : hw (msm_board table));
     current := task;
     kworker := fun c => {| policy := 0; rt_priority := 0;
                            cpus_allowed := cpumask_set_cpu c cpumask_clear |};
     cpufreq_work := fun _ => idle_work;
     cpufreq_suspend := fun c => {| suspend_mutex := false;
                                    device_suspended := suspended c |};
     trace := [] |}.

Definition task_at (pol prio : Z) (allowed : N) : task_struct :=
  {| policy := pol; rt_priority := prio; cpus_allowed := allowed |}.

Definition board_at (rate err : Z) (act : N) (mem : bool) : board :=
  {| clk_rate := rate; clk_error := err; active := act; mem_ok := mem |}.

(** The board up and running: both cores active, the clock at 600, the
    caller an ordinary task allowed on both cores. *)
Definition running : state (msm_board mhz) :=
  boot mhz (board_at 600 0 3 true) (task_at 0 0 3) (fun _ => 0).


(** The board at start-up, the clock between two entries of the table. *)
Definition starting : state (msm_board mhz) :=
  boot mhz (board_at 750 0 3 true) (task_at 0 0 3) (fun _ => 0).

Definition starting_limits : state (msm_board_limits mhz 400 800) :=
  {| hw_state := (board_at 750 0 3 true : hw (msm_board_limits mhz 400 800));
     current := task_at 0 0 3;
     kworker := fun c => task_at 0 0 (cpumask_set_cpu c cpumask_clear);
     cpufreq_work := fun _ => idle_work;
     cpufreq_suspend := fun _ => {| suspend_mutex := false; device_suspended := 0 |};
     trace := [] |}.

(** Cpu 1 taken down: inactive, its suspended flag set by the notifier. *)
Definition cpu1_down (c : nat) : Z := if Nat.eqb c 1 then 1 else 0.

Definition policy_at (c : nat) (f : Z) : cpufreq_policy :=
  {| cpu := c; cur := f; min := 300; max := 900;
     cpuinfo_min_freq := 300; cpuinfo_max_freq := 900;
     cpuinfo_transition_latency := 0; cpus := cpumask_set_cpu c cpumask_clear |}.

(** ** Vocabulary of the statements *)

(** The state a computation ends in, whether it returns or halts. *)
Definition final {P A} (r : result P A) : state P :=
  match r with
  | Ret _ s => s
  | Halt _ s => s
  end.

(** The value a computation returns, if it returns. *)
Definition returned {P A} (r : result P A) : option A :=
  match r with
  | Ret a _ => Some a
  | Halt _ _ => None
  end.

Definition is_set_rate (e : event) : bool :=
  match e with
  | Eacpuclk_set_rate _ _ => true
  | _ => false
  end.

Definition is_sched (e : event) : bool :=
  match e with
  | Esched_setscheduler _ _ => true
  | _ => false
  end.

(** Whether [set_cpu_freq] raises the priority of the task that runs it. *)
Definition elevates (task : task_struct) (pol : cpufreq_policy) (new_freq : Z) : bool :=
  (new_freq >? cur pol) && negb (policy task =? SCHED_FIFO).

Definition freqs_of (pol : cpufreq_policy) (new_freq : Z) : cpufreq_freqs :=
  {| freqs_cpu := cpu pol; old := cur pol; new := new_freq |}.

(** The state in which the worker of cpu [on] starts on the request of cpu
    [c]: the descriptor is off the queue and the task running is the
    worker's. *)
Definition worker_start {P} (on c : nat) (s : state P) : state P :=
  with_work c (put_work None (cpufreq_work s c)) (with_current (kworker s on) s).

(** The caller gone to sleep on the completion of cpu [c]. *)
Definition asleep {P} (c : nat) (s : state P) : state P :=
  with_trace (trace s ++ [Ewait_for_completion c]) s.

(** Whether every store to a [device_suspended] flag in a run is made with
    the mutex of that cpu held; [held] tells the mutexes held when the run
    starts. *)
Fixpoint stores_under_mutex (held : nat -> bool) (l : list event) : bool :=
  match l with
  | [] => true
  | Emutex_lock c :: l' => stores_under_mutex (upd held c true) l'
  | Emutex_unlock c :: l' => stores_under_mutex (upd held c false) l'
  | Edevice_suspended c _ :: l' => held c && stores_under_mutex held l'
  | _ :: l' => stores_under_mutex held l'
  end.

(** The hotplug actions [msm_cpufreq_cpu_callback] has a case for. *)
Definition hotplug_actions : list Z :=
  [CPU_ONLINE; CPU_ONLINE_FROZEN; CPU_DOWN_PREPARE; CPU_DOWN_PREPARE_FROZEN;
   CPU_DOWN_FAILED; CPU_DOWN_FAILED_FROZEN].

(** The calls to the clock driver among the calls of a run. *)
Definition set_rate_calls (l : list event) : list event := filter is_set_rate l.

(** ** Properties *)

(** *** The lookup rounds as the relation says *)

Section Resolver.

Variables (down : bool) (target : Z).

Let fits (f : Z) : bool := if down then f <=? target else target <=? f.
Let no_closer (a b : Z) : Prop := if down then a <= b else b <= a.

Lemma resolve_from_inv : forall table i best,
  (forall j b, best = Some (j, b) -> fits b = true) ->
  match resolve_from down target table i best with
  | Some (j, b) =>
      fits b = true /\
      (best = Some (j, b) \/ (i <= j)%nat /\ nth_error table (j - i) = Some b) /\
      (forall f, In f table -> fits f = true -> no_closer f b) /\
      (forall j0 b0, best = Some (j0, b0) -> no_closer b0 b)
  | None => best = None /\ forall f, In f table -> fits f = false
  end.
Proof.
  induction table as [|f rest IH]; intros i best Hbest; cbn [resolve_from].
  - destruct best as [[j b]|].
    + split; [apply (Hbest j b eq_refl)|]. split; [left; reflexivity|].
      split; [intros f []|]. intros j0 b0 [= <- <-].
      unfold no_closer. destruct down; lia.
    + split; [reflexivity|]. intros f [].
  - fold (fits f).
    set (closer := match best with
                   | Some (_, b) => if down then b <? f else f <? b
                   | None => true
                   end).
    set (best' := if fits f && closer then Some (i, f) else best).
    assert (Hbest' : forall j b, best' = Some (j, b) -> fits b = true).
    { intros j b. unfold best'. destruct (fits f && closer) eqn:E.
      - intros [= <- <-]. apply andb_prop in E. apply E.
      - apply Hbest. }
    specialize (IH (S i) best' Hbest').
    destruct (resolve_from down target rest (S i) best') as [[j b]|].
    + destruct IH as (Hfit & Hwhere & Hall & Hkeep).
      split; [exact Hfit|].
      assert (Hf : fits f = true -> no_closer f b).
      { intros Hff. unfold best' in Hkeep. rewrite Hff in Hkeep. cbn [andb] in Hkeep.
        destruct closer eqn:Hc.
        - apply (Hkeep i f eq_refl).
        - unfold closer in Hc. destruct best as [[j0 b0]|]; [|discriminate].
          specialize (Hkeep j0 b0 eq_refl).
          unfold no_closer in *. destruct down; lia. }
      split; [|split].
      * destruct Hwhere as [Heq|[Hle Hnth]].
        -- unfold best' in Heq. destruct (fits f && closer).
           ++ injection Heq as <- <-. right. split; [lia|].
              rewrite Nat.sub_diag. reflexivity.
           ++ left. exact Heq.
        -- right. split; [lia|].
           replace (j - i)%nat with (S (j - S i)) by lia. exact Hnth.
      * intros f' [<-|Hin]; [exact Hf|]. apply Hall. exact Hin.
      * intros j0 b0 ->. unfold best', closer in Hkeep.
        destruct (fits f) eqn:Hff; cbn [andb] in Hkeep.
        -- destruct (if down then b0 <? f else f <? b0) eqn:Hc.
           ++ specialize (Hkeep i f eq_refl).
              unfold no_closer in *. destruct down; lia.
           ++ apply (Hkeep j0 b0 eq_refl).
        -- apply (Hkeep j0 b0 eq_refl).
    + destruct IH as (Hnone & Hall). unfold best' in Hnone.
      destruct (fits f && closer) eqn:E; [discriminate|]. subst best.
      split; [reflexivity|]. intros f' [<-|Hin]; [|apply Hall; exact Hin].
      unfold closer in E. rewrite andb_true_r in E. exact E.
Qed.

End Resolver.

(** [CPUFREQ_RELATION_H]: the entry found is at or below the target and no
    entry at or below the target is above it. *)
Lemma resolve_H_rounds_down table target index :
  resolve table target CPUFREQ_RELATION_H = Some index ->
  exists f, nth_error table index = Some f /\ f <= target /\
            forall g, In g table -> g <= target -> g <= f.
Proof.
  unfold resolve. cbn [Z.eqb CPUFREQ_RELATION_H].
  pose proof (resolve_from_inv true target table 0 None) as H.
  destruct (resolve_from true target table 0 None) as [[j b]|]; [|discriminate].
  intros [= <-]. destruct H as (Hfit & Hwhere & Hall & _); [discriminate|].
  exists b. destruct Hwhere as [|[_ Hnth]]; [discriminate|].
  rewrite Nat.sub_0_r in Hnth. split; [exact Hnth|]. split; [apply Z.leb_le, Hfit|].
  intros g Hin Hg. apply (Hall g Hin). apply Z.leb_le. exact Hg.
Qed.

(** [CPUFREQ_RELATION_L]: the entry found is at or above the target and no
    entry at or above the target is below it. *)
Lemma resolve_L_rounds_up table target index :
  resolve table target CPUFREQ_RELATION_L = Some index ->
  exists f, nth_error table index = Some f /\ target <= f /\
            forall g, In g table -> target <= g -> f <= g.
Proof.
  unfold resolve. cbn [Z.eqb CPUFREQ_RELATION_L CPUFREQ_RELATION_H].
  pose proof (resolve_from_inv false target table 0 None) as H.
  destruct (resolve_from false target table 0 None) as [[j b]|]; [|discriminate].
  intros [= <-]. destruct H as (Hfit & Hwhere & Hall & _); [discriminate|].
  exists b. destruct Hwhere as [|[_ Hnth]]; [discriminate|].
  rewrite Nat.sub_0_r in Hnth. split; [exact Hnth|]. split; [apply Z.leb_le, Hfit|].
  intros g Hin Hg. apply (Hall g Hin). apply Z.leb_le. exact Hg.
Qed.

(** The lookup fails exactly when no entry satisfies the relation. *)
Lemma resolve_H_fails table target :
  resolve table target CPUFREQ_RELATION_H = None <->
  forall g, In g table -> target < g.
Proof.
  unfold resolve. cbn [Z.eqb CPUFREQ_RELATION_H].
  pose proof (resolve_from_inv true target table 0 None) as H.
  destruct (resolve_from true target table 0 None) as [[j b]|].
  - destruct H as (Hfit & Hwhere & _); [discriminate|].
    destruct Hwhere as [|[_ Hnth]]; [discriminate|].
    split; [discriminate|]. intros Hall.
    apply nth_error_In in Hnth. apply Hall in Hnth. apply Z.leb_le in Hfit. lia.
  - destruct H as (_ & Hall); [discriminate|].
    split; [|reflexivity]. intros _ g Hin. apply Hall in Hin.
    apply Z.leb_gt in Hin. exact Hin.
Qed.

Section Properties.

Variable P : platform.
Implicit Types (s : state P) (pol : cpufreq_policy).

Ltac run :=
  unfold bind, ret, stop, gets, modify, emit; cbn.

(** What one run of [set_cpu_freq] does, field by field. *)
Lemma set_cpu_freq_run pol new_freq s :
  let task := current s in
  let up := elevates task pol new_freq in
  let back := up && (policy task >=? 0) in
  let freqs := freqs_of pol new_freq in
  let rh := acpuclk_set_rate P (cpu pol) new_freq
              (notify_transition P freqs CPUFREQ_PRECHANGE (hw_state s)) in
  exists s',
    set_cpu_freq pol new_freq s = Ret (fst rh) s' /\
    trace s' = trace s
      ++ (if up then [Esched_setscheduler SCHED_FIFO (MAX_RT_PRIO - 1)] else [])
      ++ [Ecpufreq_notify_transition freqs CPUFREQ_PRECHANGE;
          Eacpuclk_set_rate (cpu pol) new_freq]
      ++ (if fst rh =? 0 then [Ecpufreq_notify_transition freqs CPUFREQ_POSTCHANGE] else [])
      ++ (if back then [Esched_setscheduler (policy task) (rt_priority task)] else []) /\
    hw_state s' = (if fst rh =? 0
                   then notify_transition P freqs CPUFREQ_POSTCHANGE (snd rh)
                   else snd rh) /\
    current s' = (if back then {| policy := policy task; rt_priority := rt_priority task;
                                  cpus_allowed := cpus_allowed task |}
                  else if up then {| policy := SCHED_FIFO; rt_priority := MAX_RT_PRIO - 1;
                                     cpus_allowed := cpus_allowed task |}
                  else task) /\
    @kworker P s' = @kworker P s /\
    @cpufreq_work P s' = @cpufreq_work P s /\
    @cpufreq_suspend P s' = @cpufreq_suspend P s.
Proof.
  intros task up back freqs rh.
  unfold set_cpu_freq, sched_setscheduler_nocheck, cpufreq_notify_transition,
    do_acpuclk_set_rate.
  subst back up. unfold elevates. subst task.
  run.
  destruct ((new_freq >? cur pol) && negb (policy (current s) =? SCHED_FIFO)) eqn:Hup.
  - apply andb_prop in Hup. destruct Hup as [Hgt _]. rewrite Hgt. run.
    fold (freqs_of pol new_freq). fold freqs. fold rh.
    destruct (fst rh =? 0); run; destruct (policy (current s) >=? 0); run;
      eexists; repeat split; cbn; rewrite <- ?app_assoc; reflexivity.
  - run. fold (freqs_of pol new_freq). fold freqs. fold rh.
    rewrite andb_false_r.
    destruct (fst rh =? 0); run;
      eexists; repeat split; cbn; rewrite <- ?app_assoc; reflexivity.
Qed.

(** C5.  Every run of [set_cpu_freq] returns; the pre-change notification
    comes right before the call of [acpuclk_set_rate]; the post-change
    notification follows exactly when that call returned 0; the value returned
    is the one [acpuclk_set_rate] returned.  Around these the run makes
    scheduler calls only. *)
Theorem set_cpu_freq_notifies pol new_freq s :
  let freqs := freqs_of pol new_freq in
  let r := fst (acpuclk_set_rate P (cpu pol) new_freq
                  (notify_transition P freqs CPUFREQ_PRECHANGE (hw_state s))) in
  exists s' before after,
    set_cpu_freq pol new_freq s = Ret r s' /\
    trace s' = trace s ++ before
      ++ [Ecpufreq_notify_transition freqs CPUFREQ_PRECHANGE;
          Eacpuclk_set_rate (cpu pol) new_freq]
      ++ (if r =? 0 then [Ecpufreq_notify_transition freqs CPUFREQ_POSTCHANGE] else [])
      ++ after /\
    forallb is_sched before = true /\
    forallb is_sched after = true.
Proof.
  intros freqs r.
  destruct (set_cpu_freq_run pol new_freq s) as (s' & Hrun & Htr & _).
  exists s'.
  exists (if elevates (current s) pol new_freq
          then [Esched_setscheduler SCHED_FIFO (MAX_RT_PRIO - 1)] else []).
  exists (if elevates (current s) pol new_freq && (policy (current s) >=? 0)
          then [Esched_setscheduler (policy (current s)) (rt_priority (current s))]
          else []).
  repeat split.
  - exact Hrun.
  - exact Htr.
  - destruct (elevates (current s) pol new_freq); reflexivity.
  - destruct (elevates (current s) pol new_freq && (policy (current s) >=? 0));
      reflexivity.
Qed.

(** C2, as amended.  [set_cpu_freq] raises the task that runs it to
    [SCHED_FIFO] at [MAX_RT_PRIO - 1] exactly when the new frequency is above
    the old one and the task is not in [SCHED_FIFO] already; it does so before
    anything else.  A task raised this way, its class being one of the
    scheduler's (none is negative), is put back to the class and priority it
    had as the last thing before the return, whatever [acpuclk_set_rate]
    answered; in between the scheduler is not called. *)
Theorem set_cpu_freq_priority pol new_freq s
    (Hclass : 0 <= policy (current s)) :
  let task := current s in
  let up := elevates task pol new_freq in
  exists r s' between,
    set_cpu_freq pol new_freq s = Ret r s' /\
    r = fst (acpuclk_set_rate P (cpu pol) new_freq
               (notify_transition P (freqs_of pol new_freq) CPUFREQ_PRECHANGE
                  (hw_state s))) /\
    trace s' = trace s
      ++ (if up then [Esched_setscheduler SCHED_FIFO (MAX_RT_PRIO - 1)] else [])
      ++ between
      ++ (if up then [Esched_setscheduler (policy task) (rt_priority task)] else []) /\
    existsb is_sched between = false /\
    current s' = task.
Proof.
  intros task up.
  destruct (set_cpu_freq_run pol new_freq s) as (s' & Hrun & Htr & _ & Hcur & _).
  fold task in Htr, Hcur. fold up in Htr, Hcur.
  assert (Hge : (policy task >=? 0) = true).
  { subst task. apply Z.geb_le. exact Hclass. }
  rewrite Hge, andb_true_r in Htr, Hcur.
  set (freqs := freqs_of pol new_freq) in *.
  set (rh := acpuclk_set_rate P (cpu pol) new_freq
               (notify_transition P freqs CPUFREQ_PRECHANGE (hw_state s))) in *.
  exists (fst rh), s'.
  exists ([Ecpufreq_notify_transition freqs CPUFREQ_PRECHANGE;
           Eacpuclk_set_rate (cpu pol) new_freq]
          ++ (if fst rh =? 0
              then [Ecpufreq_notify_transition freqs CPUFREQ_POSTCHANGE] else [])).
  split; [exact Hrun|]. split; [reflexivity|].
  split; [|split].
  - rewrite Htr. rewrite <- !app_assoc. reflexivity.
  - destruct (fst rh =? 0); reflexivity.
  - rewrite Hcur. destruct up; [destruct task|]; reflexivity.
Qed.

Lemma upd_same {A} (f : nat -> A) c v : upd f c v c = v.
Proof. unfold upd. rewrite Nat.eqb_refl. reflexivity. Qed.

(** The test of [msm_cpufreq_target] on the affinity mask holds exactly when
    the mask is the singleton of the cpu. *)
Lemma cpumask_equal_singleton c (m : cpumask) :
  cpumask_equal (cpumask_set_cpu c cpumask_clear) m = true <->
  (forall i, N.testbit m i = N.eqb i (N.of_nat c)).
Proof.
  unfold cpumask_equal, cpumask_set_cpu, cpumask_clear. rewrite N.eqb_eq. split.
  - intros <- i. rewrite N.setbit_eqb, N.bits_0, orb_false_r. apply N.eqb_sym.
  - intros H. apply N.bits_inj. intros i.
    rewrite N.setbit_eqb, N.bits_0, orb_false_r, H. apply N.eqb_sym.
Qed.

Lemma bind_Ret {A B} (m : M P A) (k : A -> M P B) s a s1 R :
  m s = Ret a s1 -> k a s1 = R -> bind P m k s = R.
Proof. unfold bind. intros -> ->. reflexivity. Qed.

Lemma bind_Halt {A B} (m : M P A) (k : A -> M P B) s h s1 :
  m s = Halt h s1 -> bind P m k s = Halt h s1.
Proof. unfold bind. intros ->. reflexivity. Qed.

(** Projections of updated states, and reads of the cell just written. *)
Ltac simp :=
  cbn [hw_state current kworker cpufreq_work cpufreq_suspend trace
       with_hw with_current with_kworker with_work with_suspend with_trace
       work work_policy complete frequency status
       put_work put_policy put_complete put_frequency put_status
       suspend_mutex device_suspended fst snd negb];
  rewrite ?upd_same.

Ltac fields :=
  simp; unfold put_work, put_policy, put_complete, put_frequency, put_status; simp.

Ltac prim :=
  unfold mutex_lock, mutex_unlock, store_device_suspended, set_work, cancel_work_sync,
    INIT_COMPLETION, INIT_WORK, init_completion, queue_work_on, do_complete,
    emit, modify, gets, ret, stop, bind.

(** One statement of the C function: run a primitive, go on in the state it
    leaves. *)
Ltac step := eapply bind_Ret; [prim; simp; reflexivity | cbn beta; simp].

Lemma mutex_lock_free c s :
  suspend_mutex (cpufreq_suspend s c) = false ->
  mutex_lock P c s =
  Ret tt (with_suspend c {| suspend_mutex := true;
                            device_suspended := device_suspended (cpufreq_suspend s c) |}
            (with_trace (trace s ++ [Emutex_lock c]) s)).
Proof. intros H. prim. rewrite H. reflexivity. Qed.

Lemma mutex_lock_held c s :
  suspend_mutex (cpufreq_suspend s c) = true -> mutex_lock P c s = Halt Blocked s.
Proof. intros H. prim. rewrite H. reflexivity. Qed.

(** The three ways [msm_cpufreq_target] ends before it looks the target up. *)
Lemma target_run_inactive pol target_freq relation s :
  cpu_active P (cpu pol) (hw_state s) = false ->
  msm_cpufreq_target pol target_freq relation s = Ret (- ENODEV) s.
Proof.
  intros H. unfold msm_cpufreq_target. step. rewrite H. reflexivity.
Qed.

Lemma target_run_enomem pol target_freq relation s :
  cpu_active P (cpu pol) (hw_state s) = true ->
  fst (alloc_cpumask_var P (hw_state s)) = false ->
  msm_cpufreq_target pol target_freq relation s =
  Ret (- ENOMEM) (with_hw (snd (alloc_cpumask_var P (hw_state s))) s).
Proof.
  intros Ha Hm. unfold msm_cpufreq_target. step. rewrite Ha. simp.
  step. rewrite Hm. reflexivity.
Qed.

Lemma target_run_blocked pol target_freq relation s :
  cpu_active P (cpu pol) (hw_state s) = true ->
  fst (alloc_cpumask_var P (hw_state s)) = true ->
  suspend_mutex (cpufreq_suspend s (cpu pol)) = true ->
  msm_cpufreq_target pol target_freq relation s =
  Halt Blocked (with_hw (snd (alloc_cpumask_var P (hw_state s))) s).
Proof.
  intros Ha Hm Hl. unfold msm_cpufreq_target. step. rewrite Ha. simp.
  step. rewrite Hm. simp.
  apply bind_Halt. apply mutex_lock_held. exact Hl.
Qed.

Lemma target_run_suspended pol target_freq relation s :
  cpu_active P (cpu pol) (hw_state s) = true ->
  fst (alloc_cpumask_var P (hw_state s)) = true ->
  suspend_mutex (cpufreq_suspend s (cpu pol)) = false ->
  device_suspended (cpufreq_suspend s (cpu pol)) <> 0 ->
  exists s',
    msm_cpufreq_target pol target_freq relation s = Ret (- EFAULT) s' /\
    trace s' = trace s ++ [Emutex_lock (cpu pol); Emutex_unlock (cpu pol)].
Proof.
  intros Ha Hm Hl Hs. apply Z.eqb_neq in Hs.
  eexists. split.
  - unfold msm_cpufreq_target. step. rewrite Ha. simp.
    step. rewrite Hm. simp.
    eapply bind_Ret; [apply mutex_lock_free; exact Hl|]. cbn beta.
    eapply bind_Ret.
    { step. rewrite Hs. reflexivity. }
    cbn beta. step. step. reflexivity.
  - simp. rewrite <- app_assoc. reflexivity.
Qed.

(** C7.  On a cpu that is not active [msm_cpufreq_target] returns [-ENODEV]
    at once: the state it returns in is the state it was called in, so no
    mutex was taken, nothing looked up, queued or sent to the clock. *)
Theorem target_inactive pol target_freq relation s
    (Hinactive : cpu_active P (cpu pol) (hw_state s) = false) :
  msm_cpufreq_target pol target_freq relation s = Ret (- ENODEV) s.
Proof.
  apply target_run_inactive. exact Hinactive.
Qed.

(** C9.  On an active cpu, when [alloc_cpumask_var] fails,
    [msm_cpufreq_target] returns [-ENOMEM]; nothing but the allocator's own
    state has changed: no call is recorded (no mutex taken, no notification,
    no work queued, no clock call) and the per-cpu data and the task are as
    they were. *)
Theorem target_enomem pol target_freq relation s
    (Hactive : cpu_active P (cpu pol) (hw_state s) = true)
    (Hnomem : fst (alloc_cpumask_var P (hw_state s)) = false) :
  exists s',
    msm_cpufreq_target pol target_freq relation s = Ret (- ENOMEM) s' /\
    s' = with_hw (snd (alloc_cpumask_var P (hw_state s))) s /\
    trace s' = trace s /\
    @cpufreq_suspend P s' = @cpufreq_suspend P s /\
    @cpufreq_work P s' = @cpufreq_work P s /\
    current s' = current s.
Proof.
  eexists. split.
  - apply target_run_enomem; assumption.
  - repeat split.
Qed.

(** C1, as amended.  With the suspended flag of the cpu set,
    [msm_cpufreq_target] never calls [acpuclk_set_rate], however it ends; and
    when the cpu is active, the mask is allocated and the mutex is free, it
    returns [-EFAULT], having only taken and released the mutex. *)
Theorem target_suspended pol target_freq relation s
    (Hsuspended : device_suspended (cpufreq_suspend s (cpu pol)) <> 0) :
  (exists calls,
     trace (final (msm_cpufreq_target pol target_freq relation s)) = trace s ++ calls /\
     existsb is_set_rate calls = false) /\
  (cpu_active P (cpu pol) (hw_state s) = true ->
   fst (alloc_cpumask_var P (hw_state s)) = true ->
   suspend_mutex (cpufreq_suspend s (cpu pol)) = false ->
   exists s',
     msm_cpufreq_target pol target_freq relation s = Ret (- EFAULT) s' /\
     trace s' = trace s ++ [Emutex_lock (cpu pol); Emutex_unlock (cpu pol)]).
Proof.
  split.
  - destruct (cpu_active P (cpu pol) (hw_state s)) eqn:Ha.
    2:{ rewrite target_run_inactive by exact Ha.
        exists []. rewrite app_nil_r. split; reflexivity. }
    destruct (fst (alloc_cpumask_var P (hw_state s))) eqn:Hm.
    2:{ rewrite target_run_enomem by assumption.
        exists []. rewrite app_nil_r. split; reflexivity. }
    destruct (suspend_mutex (cpufreq_suspend s (cpu pol))) eqn:Hl.
    { rewrite target_run_blocked by assumption.
      exists []. rewrite app_nil_r. split; reflexivity. }
    destruct (target_run_suspended pol target_freq relation s Ha Hm Hl Hsuspended)
      as (s' & Hrun & Htr).
    rewrite Hrun. cbn [final]. rewrite Htr. eexists. split; reflexivity.
  - intros Ha Hm Hl. apply target_run_suspended; assumption.
Qed.

Lemma ex_final {A} (m : M P A) s a (Q : state P -> Prop) :
  (exists s', m s = Ret a s' /\ Q s') ->
  m s = Ret a (final (m s)) /\ Q (final (m s)).
Proof. intros (s' & H & HQ). rewrite H. cbn [final]. split; [reflexivity|exact HQ]. Qed.

(** [set_cpu_freq] leaves the per-cpu data of the driver alone. *)
Lemma set_cpu_freq_frame pol new_freq s r s2 :
  set_cpu_freq pol new_freq s = Ret r s2 ->
  @cpufreq_work P s2 = @cpufreq_work P s /\
  @cpufreq_suspend P s2 = @cpufreq_suspend P s.
Proof.
  intros H.
  destruct (set_cpu_freq_run pol new_freq s) as (s' & Hrun & _ & _ & _ & _ & Hw & Hs).
  rewrite H in Hrun. injection Hrun as _ <-. split; assumption.
Qed.

(** The worker of cpu [on] serving the request stored for cpu [c]. *)
Lemma worker_thread_run on c s pol f r s2 :
  work_policy (cpufreq_work s c) = Some pol ->
  frequency (cpufreq_work s c) = f ->
  set_cpu_freq pol f (worker_start on c s) = Ret r s2 ->
  exists s',
    worker_thread on c s = Ret tt s' /\
    trace s' = trace s2 ++ [Ecomplete c] /\
    hw_state s' = hw_state s2 /\
    current s' = current s /\
    complete (cpufreq_work s' c) = S (complete (cpufreq_work s c)) /\
    status (cpufreq_work s' c) = r /\
    @cpufreq_suspend P s' = @cpufreq_suspend P s.
Proof.
  intros Hpol Hf Hrun.
  destruct (set_cpu_freq_frame _ _ _ _ _ Hrun) as (Hwork & Hsusp).
  assert (Hbody : exists s3,
            bind P (set_work P c (put_work None)) (fun _ => set_cpu_work c)
              (with_current (kworker s on) s) = Ret tt s3 /\
            trace s3 = trace s2 ++ [Ecomplete c] /\
            hw_state s3 = hw_state s2 /\
            complete (cpufreq_work s3 c) = S (complete (cpufreq_work s c)) /\
            status (cpufreq_work s3 c) = r /\
            @cpufreq_suspend P s3 = @cpufreq_suspend P s).
  { eexists. split.
    - step. unfold set_cpu_work.
      step. rewrite Hpol, Hf.
      eapply bind_Ret; [exact Hrun|]. cbn beta.
      step. unfold do_complete. step. prim. reflexivity.
    - simp. rewrite Hwork, Hsusp. unfold worker_start. fields. repeat split. }
  destruct Hbody as (s3 & Hbody & Ht3 & Hh3 & Hd3 & Hs3 & Hsu3).
  eexists. split.
  { unfold worker_thread. rewrite Hbody. reflexivity. }
  simp. repeat split; assumption.
Qed.

(** The caller going to sleep on a completion that is not signalled yet,
    with the request queued on cpu [on]: the worker serves the request and
    wakes the caller. *)
Lemma wait_for_completion_run on c s pol f r s2 :
  complete (cpufreq_work s c) = 0%nat ->
  work (cpufreq_work s c) = Some on ->
  work_policy (cpufreq_work s c) = Some pol ->
  frequency (cpufreq_work s c) = f ->
  set_cpu_freq pol f (worker_start on c (asleep c s)) = Ret r s2 ->
  exists s',
    wait_for_completion c s = Ret tt s' /\
    trace s' = trace s2 ++ [Ecomplete c] /\
    hw_state s' = hw_state s2 /\
    current s' = current s /\
    status (cpufreq_work s' c) = r /\
    @cpufreq_suspend P s' = @cpufreq_suspend P s.
Proof.
  intros Hdone Hwork Hpol Hf Hrun.
  destruct (worker_thread_run on c (asleep c s) pol f r s2 Hpol Hf Hrun)
    as (s3 & Hw & Ht3 & Hh3 & Hc3 & Hd3 & Hs3 & Hsu3).
  eexists. split.
  { unfold wait_for_completion. step. step. rewrite Hdone, Hwork.
    eapply bind_Ret; [exact Hw|]. cbn beta.
    step. rewrite Hd3. unfold asleep. simp. rewrite Hdone. prim. reflexivity. }
  simp. unfold put_complete. simp. repeat split; assumption.
Qed.

(** The inline path of [msm_cpufreq_target], up to and from its call of
    [set_cpu_freq]. *)
Lemma target_run_inline pol target_freq relation s table index f :
  cpu_active P (cpu pol) (hw_state s) = true ->
  fst (alloc_cpumask_var P (hw_state s)) = true ->
  suspend_mutex (cpufreq_suspend s (cpu pol)) = false ->
  device_suspended (cpufreq_suspend s (cpu pol)) = 0 ->
  cpufreq_frequency_get_table P (cpu pol)
    (snd (alloc_cpumask_var P (hw_state s))) = Some table ->
  cpufreq_frequency_table_target P pol table target_freq relation = Some index ->
  nth_error table index = Some f ->
  cpumask_equal (cpumask_set_cpu (cpu pol) cpumask_clear)
    (cpus_allowed (current s)) = true ->
  exists s1,
    (current s1 = current s /\
     hw_state s1 = snd (alloc_cpumask_var P (hw_state s)) /\
     trace s1 = trace s ++ [Emutex_lock (cpu pol)]) /\
    forall r s2,
      set_cpu_freq pol f s1 = Ret r s2 ->
      exists s',
        msm_cpufreq_target pol target_freq relation s = Ret r s' /\
        trace s' = trace s2 ++ [Emutex_unlock (cpu pol)] /\
        current s' = current s2.
Proof.
  intros Hactive Halloc Hfree Hawake Htable Hindex Hf Hmask.
  eexists. split; cycle 1.
  - intros r s2 Hrun. eexists. split.
    + unfold msm_cpufreq_target. step. rewrite Hactive. simp.
      step. rewrite Halloc. simp.
      eapply bind_Ret; [apply mutex_lock_free; exact Hfree|]. cbn beta.
      eapply bind_Ret.
      { step. rewrite Hawake. cbn [Z.eqb negb].
        step. rewrite Htable, Hindex.
        eapply bind_Ret; [unfold table_frequency; rewrite Hf; reflexivity|]. cbn beta.
        step. step. step. step. rewrite Hmask.
        step. fields. exact Hrun. }
      cbn beta. step. step. reflexivity.
    + simp. split; reflexivity.
  - simp. repeat split.
Qed.

(** What the caller finds when it wakes, having gone to sleep in state [st]
    with the request for [f] queued. *)
Ltac woken pol f r s2 Hrun c st :=
  let H1 := fresh in let H2 := fresh in let H3 := fresh in let H4 := fresh in
  assert (H1 : complete (cpufreq_work st c) = 0%nat) by (fields; reflexivity);
  assert (H2 : work (cpufreq_work st c) = Some c) by (fields; reflexivity);
  assert (H3 : work_policy (cpufreq_work st c) = Some pol) by (fields; reflexivity);
  assert (H4 : frequency (cpufreq_work st c) = f) by (fields; reflexivity);
  destruct (ex_final _ _ _ _
              (wait_for_completion_run c c st pol f r s2 H1 H2 H3 H4 Hrun))
    as (Hw & Ht & Hh & Hc & Hs & Hsu).

(** The remote path of [msm_cpufreq_target], up to and from the worker's call
    of [set_cpu_freq]. *)
Lemma target_run_remote pol target_freq relation s table index f :
  cpu_active P (cpu pol) (hw_state s) = true ->
  fst (alloc_cpumask_var P (hw_state s)) = true ->
  suspend_mutex (cpufreq_suspend s (cpu pol)) = false ->
  device_suspended (cpufreq_suspend s (cpu pol)) = 0 ->
  cpufreq_frequency_get_table P (cpu pol)
    (snd (alloc_cpumask_var P (hw_state s))) = Some table ->
  cpufreq_frequency_table_target P pol table target_freq relation = Some index ->
  nth_error table index = Some f ->
  cpumask_equal (cpumask_set_cpu (cpu pol) cpumask_clear)
    (cpus_allowed (current s)) = false ->
  exists s1,
    (current s1 = kworker s (cpu pol) /\
     hw_state s1 = snd (alloc_cpumask_var P (hw_state s)) /\
     trace s1 = trace s ++ [Emutex_lock (cpu pol); Ecancel_work_sync (cpu pol);
                            EINIT_COMPLETION (cpu pol);
                            Equeue_work_on (cpu pol) (cpu pol);
                            Ewait_for_completion (cpu pol)]) /\
    forall r s2,
      set_cpu_freq pol f s1 = Ret r s2 ->
      exists s',
        msm_cpufreq_target pol target_freq relation s = Ret r s' /\
        trace s' = trace s2 ++ [Ecomplete (cpu pol); Emutex_unlock (cpu pol)] /\
        status (cpufreq_work s' (cpu pol)) = r /\
        current s' = current s.
Proof.
  intros Hactive Halloc Hfree Hawake Htable Hindex Hf Hne.
  eexists. split; cycle 1.
  - intros r s2 Hrun.
    eexists. split.
    + unfold msm_cpufreq_target. step. rewrite Hactive. simp.
      step. rewrite Halloc. simp.
      eapply bind_Ret; [apply mutex_lock_free; exact Hfree|]. cbn beta.
      eapply bind_Ret.
      { step. rewrite Hawake. cbn [Z.eqb negb].
        step. rewrite Htable, Hindex.
        eapply bind_Ret; [unfold table_frequency; rewrite Hf; reflexivity|]. cbn beta.
        step. step. step. step. rewrite Hne.
        step. step. step.
        match goal with
        | |- bind P (wait_for_completion ?c) _ ?st = _ => woken pol f r s2 Hrun c st
        end.
        eapply bind_Ret; [exact Hw|]. cbn beta.
        prim. rewrite Hs. reflexivity. }
      cbn beta. step. step. reflexivity.
    + simp.
      match goal with
      | |- context [final (wait_for_completion ?c ?st)] => woken pol f r s2 Hrun c st
      end.
      rewrite Ht, Hs, Hc. simp. rewrite <- app_assoc. repeat split.
  - unfold worker_start, asleep. simp. rewrite <- !app_assoc. repeat split.
Qed.

(** C3.  Once the operating point [f] is resolved (cpu active, mask
    allocated, mutex free, cpu not suspended, lookup successful):
    - when the affinity mask of the caller is the singleton of the cpu, the
      caller itself runs [set_cpu_freq] for [f] between taking and releasing
      the mutex, and what that run returns is what [msm_cpufreq_target]
      returns;
    - otherwise the work of the cpu is cancelled, the completion reset, the
      work queued on the cpu, the caller waits; the worker of the cpu, as its
      own task, runs [set_cpu_freq] for [f], stores what it returns in
      [status] and signals the completion; the caller then returns that
      [status]. *)
Theorem target_dispatch pol target_freq relation s table index f
    (Hactive : cpu_active P (cpu pol) (hw_state s) = true)
    (Halloc : fst (alloc_cpumask_var P (hw_state s)) = true)
    (Hfree : suspend_mutex (cpufreq_suspend s (cpu pol)) = false)
    (Hawake : device_suspended (cpufreq_suspend s (cpu pol)) = 0)
    (Htable : cpufreq_frequency_get_table P (cpu pol)
                (snd (alloc_cpumask_var P (hw_state s))) = Some table)
    (Hindex : cpufreq_frequency_table_target P pol table target_freq relation
              = Some index)
    (Hf : nth_error table index = Some f) :
  let c := cpu pol in
  let h := snd (alloc_cpumask_var P (hw_state s)) in
  ((forall i, N.testbit (cpus_allowed (current s)) i = N.eqb i (N.of_nat c)) ->
   exists s1 r s2 s',
     current s1 = current s /\ hw_state s1 = h /\
     trace s1 = trace s ++ [Emutex_lock c] /\
     set_cpu_freq pol f s1 = Ret r s2 /\
     msm_cpufreq_target pol target_freq relation s = Ret r s' /\
     trace s' = trace s2 ++ [Emutex_unlock c] /\
     current s' = current s2) /\
  (~ (forall i, N.testbit (cpus_allowed (current s)) i = N.eqb i (N.of_nat c)) ->
   exists s1 r s2 s',
     current s1 = kworker s c /\ hw_state s1 = h /\
     trace s1 = trace s ++ [Emutex_lock c; Ecancel_work_sync c; EINIT_COMPLETION c;
                            Equeue_work_on c c; Ewait_for_completion c] /\
     set_cpu_freq pol f s1 = Ret r s2 /\
     msm_cpufreq_target pol target_freq relation s = Ret r s' /\
     trace s' = trace s2 ++ [Ecomplete c; Emutex_unlock c] /\
     status (cpufreq_work s' c) = r /\
     current s' = current s).
Proof.
  intros c h. subst c h. split; intros Hmask.
  - apply cpumask_equal_singleton in Hmask.
    destruct (target_run_inline pol target_freq relation s table index f
                Hactive Halloc Hfree Hawake Htable Hindex Hf Hmask)
      as (s1 & (Hc1 & Hh1 & Ht1) & Hgo).
    destruct (set_cpu_freq_run pol f s1) as (s2 & Hrun & _).
    destruct (Hgo _ _ Hrun) as (s' & Htarget & Ht & Hc).
    exists s1. eexists. exists s2, s'.
    repeat match goal with |- _ /\ _ => split end; eassumption.
  - assert (Hne : cpumask_equal (cpumask_set_cpu (cpu pol) cpumask_clear)
                    (cpus_allowed (current s)) = false).
    { destruct (cpumask_equal _ _) eqn:E; [|reflexivity].
      exfalso. apply Hmask. apply cpumask_equal_singleton. exact E. }
    destruct (target_run_remote pol target_freq relation s table index f
                Hactive Halloc Hfree Hawake Htable Hindex Hf Hne)
      as (s1 & (Hc1 & Hh1 & Ht1) & Hgo).
    destruct (set_cpu_freq_run pol f s1) as (s2 & Hrun & _).
    destruct (Hgo _ _ Hrun) as (s' & Htarget & Ht & Hs & Hc).
    exists s1. eexists. exists s2, s'.
    repeat match goal with |- _ /\ _ => split end; eassumption.
Qed.


(** *** The hotplug notifier, suspend and resume *)

Lemma store_device_suspended_run c v s :
  store_device_suspended P c v s =
  Ret tt (with_suspend c {| suspend_mutex := suspend_mutex (cpufreq_suspend s c);
                            device_suspended := v |}
            (with_trace (trace s ++ [Edevice_suspended c v]) s)).
Proof. reflexivity. Qed.

Lemma callback_run_clear action hcpu s :
  In action [CPU_ONLINE; CPU_ONLINE_FROZEN; CPU_DOWN_FAILED; CPU_DOWN_FAILED_FROZEN] ->
  msm_cpufreq_cpu_callback action hcpu s =
  Ret NOTIFY_OK
    (with_suspend hcpu {| suspend_mutex := suspend_mutex (cpufreq_suspend s hcpu);
                          device_suspended := 0 |}
       (with_trace (trace s ++ [Edevice_suspended hcpu 0]) s)).
Proof.
  intros H. cbn [In] in H.
  destruct H as [<-|[<-|[<-|[<-|[]]]]]; reflexivity.
Qed.

Lemma callback_run_down_prepare action hcpu s :
  In action [CPU_DOWN_PREPARE; CPU_DOWN_PREPARE_FROZEN] ->
  suspend_mutex (cpufreq_suspend s hcpu) = false ->
  exists s',
    msm_cpufreq_cpu_callback action hcpu s = Ret NOTIFY_OK s' /\
    trace s' = trace s ++ [Emutex_lock hcpu; Edevice_suspended hcpu 1;
                           Emutex_unlock hcpu] /\
    device_suspended (cpufreq_suspend s' hcpu) = 1 /\
    suspend_mutex (cpufreq_suspend s' hcpu) = false.
Proof.
  intros H Hfree. cbn [In] in H.
  assert (Hrun : exists s',
            bind P (bind P (mutex_lock P hcpu)
                      (fun _ => bind P (store_device_suspended P hcpu 1)
                                  (fun _ => mutex_unlock P hcpu)))
              (fun _ => ret P NOTIFY_OK) s = Ret NOTIFY_OK s' /\
            trace s' = trace s ++ [Emutex_lock hcpu; Edevice_suspended hcpu 1;
                                   Emutex_unlock hcpu] /\
            device_suspended (cpufreq_suspend s' hcpu) = 1 /\
            suspend_mutex (cpufreq_suspend s' hcpu) = false).
  { eexists. split.
    - eapply bind_Ret; [|reflexivity].
      eapply bind_Ret; [apply mutex_lock_free; exact Hfree|]. cbn beta.
      step. prim. reflexivity.
    - simp. rewrite <- !app_assoc. repeat split. }
  destruct H as [<-|[<-|[]]]; exact Hrun.
Qed.

Lemma callback_run_other action hcpu s :
  ~ In action hotplug_actions ->
  msm_cpufreq_cpu_callback action hcpu s = Ret NOTIFY_OK s.
Proof.
  intros H. unfold hotplug_actions in H. cbn [In] in H.
  unfold msm_cpufreq_cpu_callback.
  rewrite (proj2 (Z.eqb_neq action CPU_ONLINE)) by intuition congruence.
  rewrite (proj2 (Z.eqb_neq action CPU_ONLINE_FROZEN)) by intuition congruence.
  rewrite (proj2 (Z.eqb_neq action CPU_DOWN_PREPARE)) by intuition congruence.
  rewrite (proj2 (Z.eqb_neq action CPU_DOWN_PREPARE_FROZEN)) by intuition congruence.
  rewrite (proj2 (Z.eqb_neq action CPU_DOWN_FAILED)) by intuition congruence.
  rewrite (proj2 (Z.eqb_neq action CPU_DOWN_FAILED_FROZEN)) by intuition congruence.
  reflexivity.
Qed.

Lemma hotplug_actions_cases action :
  In action [CPU_ONLINE; CPU_ONLINE_FROZEN; CPU_DOWN_FAILED; CPU_DOWN_FAILED_FROZEN] \/
  In action [CPU_DOWN_PREPARE; CPU_DOWN_PREPARE_FROZEN] \/
  ~ In action hotplug_actions.
Proof.
  unfold hotplug_actions. cbn [In].
  destruct (Z.eq_dec CPU_ONLINE action); [tauto|].
  destruct (Z.eq_dec CPU_ONLINE_FROZEN action); [tauto|].
  destruct (Z.eq_dec CPU_DOWN_PREPARE action); [tauto|].
  destruct (Z.eq_dec CPU_DOWN_PREPARE_FROZEN action); [tauto|].
  destruct (Z.eq_dec CPU_DOWN_FAILED action); [tauto|].
  destruct (Z.eq_dec CPU_DOWN_FAILED_FROZEN action); [tauto|].
  right. right. tauto.
Qed.

(** Storing [v] in the flag of each cpu of a list, in turn. *)
Lemma for_each_cpu_store v l : forall s,
  exists s',
    for_each_cpu P l (fun c => store_device_suspended P c v) s = Ret tt s' /\
    trace s' = trace s ++ map (fun c => Edevice_suspended c v) l /\
    (forall c, device_suspended (cpufreq_suspend s' c) =
               if existsb (Nat.eqb c) l then v
               else device_suspended (cpufreq_suspend s c)) /\
    (forall c, suspend_mutex (cpufreq_suspend s' c) = suspend_mutex (cpufreq_suspend s c)).
Proof.
  induction l as [|c0 l IH]; intros s.
  - exists s. cbn. rewrite app_nil_r. repeat split.
  - destruct (IH (with_suspend c0
                    {| suspend_mutex := suspend_mutex (cpufreq_suspend s c0);
                       device_suspended := v |}
                    (with_trace (trace s ++ [Edevice_suspended c0 v]) s)))
      as (s' & Hrun & Htr & Hset & Hmx).
    exists s'. split; [|split; [|split]].
    + cbn [for_each_cpu]. eapply bind_Ret; [apply store_device_suspended_run|].
      exact Hrun.
    + rewrite Htr. simp. rewrite <- app_assoc. reflexivity.
    + intros c. rewrite Hset. simp. cbn [existsb]. unfold upd.
      destruct (existsb (Nat.eqb c) l); [rewrite orb_true_r; reflexivity|].
      rewrite orb_false_r. destruct (Nat.eqb c c0); reflexivity.
    + intros c. rewrite Hmx. simp. unfold upd.
      destruct (Nat.eqb_spec c c0) as [->|]; reflexivity.
Qed.

(** C10.  An action the notifier has no case for leaves the whole state,
    the suspended flags included, as it was and [NOTIFY_OK] is returned; for
    any action, [NOTIFY_OK] is the only value the notifier returns, and it
    does return unless it is asked to prepare the take-down of a cpu whose
    mutex the caller holds. *)
Theorem callback_frame action hcpu s :
  (~ In action hotplug_actions ->
   msm_cpufreq_cpu_callback action hcpu s = Ret NOTIFY_OK s) /\
  (forall r s', msm_cpufreq_cpu_callback action hcpu s = Ret r s' -> r = NOTIFY_OK) /\
  ((In action [CPU_DOWN_PREPARE; CPU_DOWN_PREPARE_FROZEN] ->
    suspend_mutex (cpufreq_suspend s hcpu) = false) ->
   exists s', msm_cpufreq_cpu_callback action hcpu s = Ret NOTIFY_OK s').
Proof.
  split; [apply callback_run_other|].
  assert (Hfree : suspend_mutex (cpufreq_suspend s hcpu) = false ->
                  exists s', msm_cpufreq_cpu_callback action hcpu s = Ret NOTIFY_OK s').
  { intros Hfree.
    destruct (hotplug_actions_cases action) as [H|[H|H]].
    - eexists. apply callback_run_clear. exact H.
    - destruct (callback_run_down_prepare action hcpu s H Hfree) as (s' & Hrun & _).
      exists s'. exact Hrun.
    - exists s. apply callback_run_other. exact H. }
  split.
  - intros r s' Hrun.
    destruct (hotplug_actions_cases action) as [H|[H|H]].
    + rewrite callback_run_clear in Hrun by exact H. congruence.
    + destruct (suspend_mutex (cpufreq_suspend s hcpu)) eqn:Hheld.
      * assert (Hhalt : msm_cpufreq_cpu_callback action hcpu s = Halt Blocked s).
        { cbn [In] in H. destruct H as [<-|[<-|[]]];
            (apply bind_Halt; apply bind_Halt; apply mutex_lock_held; exact Hheld). }
        congruence.
      * destruct (Hfree eq_refl) as (s1 & H1). congruence.
    + rewrite callback_run_other in Hrun by exact H. congruence.
  - intros Hpre.
    destruct (hotplug_actions_cases action) as [H|[H|H]].
    + eexists. apply callback_run_clear. exact H.
    + apply Hfree. apply Hpre. exact H.
    + exists s. apply callback_run_other. exact H.
Qed.

(** C6, as amended.  Of the stores the hotplug notifier and the suspend and
    resume handlers make to a suspended flag, the one that prepares the
    take-down of a cpu is made between taking and releasing the mutex of that
    cpu; the stores on cpu-online and on a failed take-down, and those of the
    system-wide suspend and resume handlers, are plain stores: no mutex is
    taken around them. *)
Theorem lifecycle_stores action hcpu pol s :
  (In action [CPU_DOWN_PREPARE; CPU_DOWN_PREPARE_FROZEN] ->
   suspend_mutex (cpufreq_suspend s hcpu) = false ->
   exists s',
     msm_cpufreq_cpu_callback action hcpu s = Ret NOTIFY_OK s' /\
     trace s' = trace s ++ [Emutex_lock hcpu; Edevice_suspended hcpu 1;
                            Emutex_unlock hcpu] /\
     device_suspended (cpufreq_suspend s' hcpu) = 1 /\
     suspend_mutex (cpufreq_suspend s' hcpu) = false) /\
  (In action [CPU_ONLINE; CPU_ONLINE_FROZEN; CPU_DOWN_FAILED; CPU_DOWN_FAILED_FROZEN] ->
   exists s',
     msm_cpufreq_cpu_callback action hcpu s = Ret NOTIFY_OK s' /\
     trace s' = trace s ++ [Edevice_suspended hcpu 0] /\
     device_suspended (cpufreq_suspend s' hcpu) = 0) /\
  (exists s',
     msm_cpufreq_suspend pol s = Ret 0 s' /\
     trace s' = trace s ++ map (fun c => Edevice_suspended c 1) (possible_cpus P) /\
     forall c, In c (possible_cpus P) -> device_suspended (cpufreq_suspend s' c) = 1) /\
  (exists s',
     msm_cpufreq_resume pol s = Ret 0 s' /\
     trace s' = trace s ++ map (fun c => Edevice_suspended c 0) (possible_cpus P) /\
     forall c, In c (possible_cpus P) -> device_suspended (cpufreq_suspend s' c) = 0).
Proof.
  assert (Hin : forall c l, In c l -> existsb (Nat.eqb c) l = true).
  { intros c l H. apply existsb_exists. exists c. split; [exact H|apply Nat.eqb_refl]. }
  split; [apply callback_run_down_prepare|].
  split.
  { intros H. eexists. split; [apply callback_run_clear; exact H|].
    simp. repeat split. }
  split.
  - destruct (for_each_cpu_store 1 (possible_cpus P) s) as (s' & Hrun & Htr & Hset & _).
    exists s'. split; [|split].
    + unfold msm_cpufreq_suspend. eapply bind_Ret; [exact Hrun|reflexivity].
    + exact Htr.
    + intros c Hc. rewrite Hset, (Hin _ _ Hc). reflexivity.
  - destruct (for_each_cpu_store 0 (possible_cpus P) s) as (s' & Hrun & Htr & Hset & _).
    exists s'. split; [|split].
    + unfold msm_cpufreq_resume. eapply bind_Ret; [exact Hrun|reflexivity].
    + exact Htr.
    + intros c Hc. rewrite Hset, (Hin _ _ Hc). reflexivity.
Qed.

(** *** msm_cpufreq_init *)

(** What [msm_cpufreq_init] does once one of its lookups gave [index], the
    entry there being [f]. *)
Lemma init_run pol s table index f :
  cpufreq_frequency_get_table P (cpu pol) (hw_state s) = Some table ->
  let pol1 := init_limits P pol table in
  let cur_freq := acpuclk_get_rate P (cpu pol1) (hw_state s) in
  let rh := acpuclk_set_rate P (cpu pol1) f (hw_state s) in
  init_index P pol1 table cur_freq = Some index ->
  nth_error table index = Some f ->
  (cur_freq = f ->
   exists pol' s',
     msm_cpufreq_init pol s = Ret (0, pol') s' /\
     cur pol' = f /\ trace s' = trace s /\ hw_state s' = hw_state s) /\
  (cur_freq <> f -> fst rh <> 0 ->
   msm_cpufreq_init pol s =
   Ret (fst rh, pol1)
     (with_hw (snd rh) (with_trace (trace s ++ [Eacpuclk_set_rate (cpu pol1) f]) s))) /\
  (cur_freq <> f -> fst rh = 0 ->
   exists pol' s',
     msm_cpufreq_init pol s = Ret (0, pol') s' /\
     cur pol' = f /\
     trace s' = trace s ++ [Eacpuclk_set_rate (cpu pol1) f] /\
     hw_state s' = snd rh).
Proof.
  intros Htable pol1 cur_freq rh Hindex Hf.
  split; [|split].
  - intros Hcur. eexists. eexists. split.
    + unfold msm_cpufreq_init. step. rewrite Htable.
      fold pol1. step. fold cur_freq. rewrite Hindex.
      eapply bind_Ret; [unfold table_frequency; rewrite Hf; reflexivity|]. cbn beta.
      rewrite (proj2 (Z.eqb_eq cur_freq f) Hcur). cbn [negb].
      step. step. step. prim. reflexivity.
    + simp. repeat split. exact Hcur.
  - intros Hcur Hr.
    unfold msm_cpufreq_init. step. rewrite Htable.
    fold pol1. step. fold cur_freq. rewrite Hindex.
    eapply bind_Ret; [unfold table_frequency; rewrite Hf; reflexivity|]. cbn beta.
    rewrite (proj2 (Z.eqb_neq cur_freq f) Hcur). cbn [negb].
    eapply bind_Ret.
    { unfold do_acpuclk_set_rate. step.
      fold rh. rewrite (proj2 (Z.eqb_neq (fst rh) 0) Hr). reflexivity. }
    reflexivity.
  - intros Hcur Hr. eexists. eexists. split.
    + unfold msm_cpufreq_init. step. rewrite Htable.
      fold pol1. step. fold cur_freq. rewrite Hindex.
      eapply bind_Ret; [unfold table_frequency; rewrite Hf; reflexivity|]. cbn beta.
      rewrite (proj2 (Z.eqb_neq cur_freq f) Hcur). cbn [negb].
      eapply bind_Ret.
      { unfold do_acpuclk_set_rate. step.
        fold rh. rewrite Hr. reflexivity. }
      cbn beta iota. step. step. prim. reflexivity.
    + simp. repeat split.
Qed.

Lemma init_run_invalid pol s table :
  cpufreq_frequency_get_table P (cpu pol) (hw_state s) = Some table ->
  let pol1 := init_limits P pol table in
  let cur_freq := acpuclk_get_rate P (cpu pol1) (hw_state s) in
  init_index P pol1 table cur_freq = None ->
  msm_cpufreq_init pol s = Ret (- EINVAL, pol1) s.
Proof.
  intros Htable pol1 cur_freq Hindex.
  unfold msm_cpufreq_init. step. rewrite Htable.
  fold pol1. step. fold cur_freq. rewrite Hindex. reflexivity.
Qed.

(** C8.  Without a frequency table [msm_cpufreq_init] returns [-ENODEV] and
    touches nothing.  With a table and a lookup that gave the entry [f]: when
    the clock already runs at [f] no rate is set, 0 is returned and the
    policy's current frequency is [f]; when it runs at another rate,
    [acpuclk_set_rate] is called once, for [f], what it returns is what
    [msm_cpufreq_init] returns, and when that is 0 the policy's current
    frequency is [f]. *)
Theorem init_result pol s :
  (cpufreq_frequency_get_table P (cpu pol) (hw_state s) = None ->
   msm_cpufreq_init pol s = Ret (- ENODEV, pol) s) /\
  (forall table index f,
     cpufreq_frequency_get_table P (cpu pol) (hw_state s) = Some table ->
     let pol1 := init_limits P pol table in
     let cur_freq := acpuclk_get_rate P (cpu pol1) (hw_state s) in
     let r := fst (acpuclk_set_rate P (cpu pol1) f (hw_state s)) in
     init_index P pol1 table cur_freq = Some index ->
     nth_error table index = Some f ->
     (cur_freq = f ->
      exists pol' s',
        msm_cpufreq_init pol s = Ret (0, pol') s' /\
        cur pol' = f /\ trace s' = trace s) /\
     (cur_freq <> f ->
      exists pol' s',
        msm_cpufreq_init pol s = Ret (r, pol') s' /\
        trace s' = trace s ++ [Eacpuclk_set_rate (cpu pol1) f] /\
        (r = 0 -> cur pol' = f))).
Proof.
  split.
  - intros Htable. unfold msm_cpufreq_init. step. rewrite Htable. reflexivity.
  - intros table index f Htable pol1 cur_freq r Hindex Hf.
    destruct (init_run pol s table index f Htable Hindex Hf) as (Hsame & Hfail & Hset).
    split.
    + intros Hcur. destruct (Hsame Hcur) as (pol' & s' & Hrun & Hc & Ht & _).
      exists pol', s'. repeat split; assumption.
    + intros Hcur. destruct (Z.eq_dec r 0) as [Hr|Hr].
      * destruct (Hset Hcur Hr) as (pol' & s' & Hrun & Hc & Ht & _).
        exists pol', s'. rewrite Hr. split; [exact Hrun|]. split; [exact Ht|].
        intros _. exact Hc.
      * eexists. eexists. split; [apply (Hfail Hcur Hr)|].
        simp. split; [reflexivity|]. intros H0. contradiction.
Qed.

(** C4, as amended.  [msm_cpufreq_init] looks the clock's rate up with
    [CPUFREQ_RELATION_H] first (the highest entry at or below it: round down)
    and with [CPUFREQ_RELATION_L] (round up) only when that fails.  The
    entry of the lookup that succeeded is the one it settles on: it returns
    0 with that entry as the current frequency, or the error of the
    [acpuclk_set_rate] call that was to bring the clock there.  When both
    lookups fail it returns [-EINVAL], having set no rate. *)
Theorem init_lookup_order pol s table
    (Htable : cpufreq_frequency_get_table P (cpu pol) (hw_state s) = Some table) :
  let pol1 := init_limits P pol table in
  let cur_freq := acpuclk_get_rate P (cpu pol1) (hw_state s) in
  let lookup := cpufreq_frequency_table_target P pol1 table cur_freq in
  let settles_on index :=
    forall f, nth_error table index = Some f ->
      exists r pol' s',
        msm_cpufreq_init pol s = Ret (r, pol') s' /\
        (r = 0 -> cur pol' = f) /\
        (r <> 0 -> cur_freq <> f /\
                   r = fst (acpuclk_set_rate P (cpu pol1) f (hw_state s))) in
  (forall index, lookup CPUFREQ_RELATION_H = Some index -> settles_on index) /\
  (forall index, lookup CPUFREQ_RELATION_H = None ->
                 lookup CPUFREQ_RELATION_L = Some index -> settles_on index) /\
  (lookup CPUFREQ_RELATION_H = None -> lookup CPUFREQ_RELATION_L = None ->
   msm_cpufreq_init pol s = Ret (- EINVAL, pol1) s).
Proof.
  intros pol1 cur_freq lookup settles_on.
  assert (Hsettle : forall index,
            init_index P pol1 table cur_freq = Some index -> settles_on index).
  { intros index Hindex f Hf.
    destruct (init_run pol s table index f Htable Hindex Hf) as (Hsame & Hfail & Hset).
    fold pol1 cur_freq in Hsame, Hfail, Hset.
    destruct (Z.eq_dec cur_freq f) as [Hcur|Hcur].
    - destruct (Hsame Hcur) as (pol' & s' & Hrun & Hc & _).
      exists 0, pol', s'. split; [exact Hrun|]. split; [intros _; exact Hc|].
      intros H0. contradiction.
    - destruct (Z.eq_dec (fst (acpuclk_set_rate P (cpu pol1) f (hw_state s))) 0)
        as [Hr|Hr].
      + destruct (Hset Hcur Hr) as (pol' & s' & Hrun & Hc & _).
        exists 0, pol', s'. split; [exact Hrun|]. split; [intros _; exact Hc|].
        intros H0. contradiction.
      + eexists. eexists. eexists. split; [apply (Hfail Hcur Hr)|].
        split; [intros H0; contradiction|]. intros _. split; [exact Hcur|reflexivity]. }
  split; [|split].
  - intros index HH. apply Hsettle. unfold init_index. fold lookup. rewrite HH. reflexivity.
  - intros index HH HL. apply Hsettle. unfold init_index. fold lookup.
    rewrite HH. exact HL.
  - intros HH HL. apply init_run_invalid; [exact Htable|].
    fold pol1 cur_freq. unfold init_index. fold lookup. rewrite HH. exact HL.
Qed.

(** *** Further properties of [set_cpu_freq] and [set_cpu_work] *)

(** X1.  A change that does not raise the frequency never calls the
    scheduler, whatever the class of the task: the run is the pre-change
    notification, the clock call, the post-change notification when the clock
    call returned 0, and the task is left exactly as it was. *)
Theorem set_cpu_freq_not_upward pol new_freq s
    (Hdown : new_freq <= cur pol) :
  let freqs := freqs_of pol new_freq in
  let r := fst (acpuclk_set_rate P (cpu pol) new_freq
                  (notify_transition P freqs CPUFREQ_PRECHANGE (hw_state s))) in
  exists s',
    set_cpu_freq pol new_freq s = Ret r s' /\
    trace s' = trace s
      ++ [Ecpufreq_notify_transition freqs CPUFREQ_PRECHANGE;
          Eacpuclk_set_rate (cpu pol) new_freq]
      ++ (if r =? 0 then [Ecpufreq_notify_transition freqs CPUFREQ_POSTCHANGE] else []) /\
    current s' = current s.
Proof.
  intros freqs r.
  destruct (set_cpu_freq_run pol new_freq s) as (s' & Hrun & Htr & _ & Hcur & _).
  assert (Hup : elevates (current s) pol new_freq = false).
  { unfold elevates. rewrite Z.gtb_ltb.
    rewrite (proj2 (Z.ltb_ge (cur pol) new_freq) Hdown). reflexivity. }
  rewrite Hup in Htr, Hcur. cbn [andb app] in Htr, Hcur.
  exists s'. split; [exact Hrun|]. split; [|exact Hcur].
  rewrite Htr. fold freqs. fold r. rewrite app_nil_r. reflexivity.
Qed.

(** X2.  [set_cpu_freq] always returns, and it never touches the driver's
    per-cpu data (work descriptors, completions, suspended flags, mutexes),
    the tasks of the workers, or the affinity mask of the task that runs
    it. *)
Theorem set_cpu_freq_keeps_percpu pol new_freq s :
  exists r s',
    set_cpu_freq pol new_freq s = Ret r s' /\
    @cpufreq_work P s' = @cpufreq_work P s /\
    @cpufreq_suspend P s' = @cpufreq_suspend P s /\
    @kworker P s' = @kworker P s /\
    cpus_allowed (current s') = cpus_allowed (current s).
Proof.
  destruct (set_cpu_freq_run pol new_freq s)
    as (s' & Hrun & _ & _ & Hcur & Hk & Hw & Hs).
  eexists. exists s'. split; [exact Hrun|].
  split; [exact Hw|]. split; [exact Hs|]. split; [exact Hk|].
  rewrite Hcur.
  destruct (elevates (current s) pol new_freq && (policy (current s) >=? 0));
    [reflexivity|].
  destruct (elevates (current s) pol new_freq); reflexivity.
Qed.

(** The calls [set_cpu_freq] makes: one clock call, no mutex, no store to a
    suspended flag. *)
Lemma set_cpu_freq_calls pol new_freq s r s2 :
  set_cpu_freq pol new_freq s = Ret r s2 ->
  exists calls,
    trace s2 = trace s ++ calls /\
    set_rate_calls calls = [Eacpuclk_set_rate (cpu pol) new_freq] /\
    stores_under_mutex (fun _ => false) calls = true /\
    (forall held, stores_under_mutex held calls = true).
Proof.
  intros H.
  destruct (set_cpu_freq_run pol new_freq s) as (s' & Hrun & Htr & _).
  rewrite H in Hrun. injection Hrun as Hr <-.
  eexists. split; [exact Htr|].
  destruct (elevates (current s) pol new_freq);
    destruct (fst (acpuclk_set_rate P (cpu pol) new_freq
                     (notify_transition P (freqs_of pol new_freq) CPUFREQ_PRECHANGE
                        (hw_state s))) =? 0);
    destruct (policy (current s) >=? 0); cbn; repeat split.
Qed.


(** *** The paths of [msm_cpufreq_target], with all they leave behind *)

Lemma set_cpu_freq_kworker pol new_freq s r s2 :
  set_cpu_freq pol new_freq s = Ret r s2 -> @kworker P s2 = @kworker P s.
Proof.
  intros H.
  destruct (set_cpu_freq_run pol new_freq s) as (s' & Hrun & _ & _ & _ & Hk & _).
  rewrite H in Hrun. injection Hrun as _ <-. exact Hk.
Qed.

Lemma upd_other {A} (F : nat -> A) c v c' : c' <> c -> upd F c v c' = F c'.
Proof.
  intros H. unfold upd. destruct (Nat.eqb_spec c' c); [contradiction|reflexivity].
Qed.

(** Taking and releasing the mutex of [c] puts its entry back as it was. *)
Lemma gate_restored (F : nat -> cpufreq_suspend_t) c c' d :
  suspend_mutex (F c) = false ->
  device_suspended (F c) = d ->
  upd (upd F c {| suspend_mutex := true; device_suspended := d |})
    c {| suspend_mutex := false; device_suspended := d |} c' = F c'.
Proof.
  intros H Hd. unfold upd. destruct (Nat.eqb_spec c' c) as [->|]; [|reflexivity].
  destruct (F c). cbn in *. subst. reflexivity.
Qed.

Ltac target_prologue Hactive Halloc Hfree :=
  unfold msm_cpufreq_target; step; rewrite Hactive; simp;
  step; rewrite Halloc; simp;
  (eapply bind_Ret; [apply mutex_lock_free; exact Hfree|]); cbn beta.

Lemma target_full_suspended pol target_freq relation s :
  cpu_active P (cpu pol) (hw_state s) = true ->
  fst (alloc_cpumask_var P (hw_state s)) = true ->
  suspend_mutex (cpufreq_suspend s (cpu pol)) = false ->
  device_suspended (cpufreq_suspend s (cpu pol)) <> 0 ->
  exists s',
    msm_cpufreq_target pol target_freq relation s = Ret (- EFAULT) s' /\
    trace s' = trace s ++ [Emutex_lock (cpu pol); Emutex_unlock (cpu pol)] /\
    (forall c, cpufreq_suspend s' c = cpufreq_suspend s c) /\
    @cpufreq_work P s' = @cpufreq_work P s /\
    @kworker P s' = @kworker P s /\
    current s' = current s.
Proof.
  intros Ha Hm Hl Hs. apply Z.eqb_neq in Hs.
  eexists. split.
  - target_prologue Ha Hm Hl.
    eapply bind_Ret.
    { step. rewrite Hs. reflexivity. }
    cbn beta. step. step. reflexivity.
  - simp. rewrite <- app_assoc. repeat split.
    intros c. apply gate_restored; [exact Hl|first [exact Hs|reflexivity]].
Qed.

Lemma target_full_invalid pol target_freq relation s table :
  cpu_active P (cpu pol) (hw_state s) = true ->
  fst (alloc_cpumask_var P (hw_state s)) = true ->
  suspend_mutex (cpufreq_suspend s (cpu pol)) = false ->
  device_suspended (cpufreq_suspend s (cpu pol)) = 0 ->
  cpufreq_frequency_get_table P (cpu pol)
    (snd (alloc_cpumask_var P (hw_state s))) = Some table ->
  cpufreq_frequency_table_target P pol table target_freq relation = None ->
  exists s',
    msm_cpufreq_target pol target_freq relation s = Ret (- EINVAL) s' /\
    trace s' = trace s ++ [Emutex_lock (cpu pol); Emutex_unlock (cpu pol)] /\
    (forall c, cpufreq_suspend s' c = cpufreq_suspend s c) /\
    @cpufreq_work P s' = @cpufreq_work P s /\
    @kworker P s' = @kworker P s /\
    current s' = current s.
Proof.
  intros Ha Hm Hl Hs Htable Hlookup.
  eexists. split.
  - target_prologue Ha Hm Hl.
    eapply bind_Ret.
    { step. rewrite Hs. cbn [Z.eqb negb].
      step. rewrite Htable, Hlookup. reflexivity. }
    cbn beta. step. step. reflexivity.
  - simp. rewrite <- app_assoc. repeat split.
    intros c. apply gate_restored; [exact Hl|first [exact Hs|reflexivity]].
Qed.

(** The two ways the C code reads through an invalid pointer: no table for
    the cpu, or an index past the table. *)
Lemma target_full_oops pol target_freq relation s :
  cpu_active P (cpu pol) (hw_state s) = true ->
  fst (alloc_cpumask_var P (hw_state s)) = true ->
  suspend_mutex (cpufreq_suspend s (cpu pol)) = false ->
  device_suspended (cpufreq_suspend s (cpu pol)) = 0 ->
  match cpufreq_frequency_get_table P (cpu pol)
          (snd (alloc_cpumask_var P (hw_state s))) with
  | None => True
  | Some table =>
      exists index,
        cpufreq_frequency_table_target P pol table target_freq relation = Some index /\
        nth_error table index = None
  end ->
  exists s', msm_cpufreq_target pol target_freq relation s = Halt Oops s'.
Proof.
  intros Ha Hm Hl Hs Hbad.
  destruct (cpufreq_frequency_get_table P (cpu pol)
              (snd (alloc_cpumask_var P (hw_state s)))) as [table|] eqn:Htable.
  - destruct Hbad as (index & Hlookup & Hnth). eexists.
    target_prologue Ha Hm Hl. eapply bind_Halt.
    step. rewrite Hs. cbn [Z.eqb negb].
    step. rewrite Htable, Hlookup.
    eapply bind_Halt. unfold table_frequency. rewrite Hnth. reflexivity.
  - eexists. target_prologue Ha Hm Hl. eapply bind_Halt.
    step. rewrite Hs. cbn [Z.eqb negb].
    step. rewrite Htable. reflexivity.
Qed.

Lemma target_full_inline pol target_freq relation s table index f :
  cpu_active P (cpu pol) (hw_state s) = true ->
  fst (alloc_cpumask_var P (hw_state s)) = true ->
  suspend_mutex (cpufreq_suspend s (cpu pol)) = false ->
  device_suspended (cpufreq_suspend s (cpu pol)) = 0 ->
  cpufreq_frequency_get_table P (cpu pol)
    (snd (alloc_cpumask_var P (hw_state s))) = Some table ->
  cpufreq_frequency_table_target P pol table target_freq relation = Some index ->
  nth_error table index = Some f ->
  cpumask_equal (cpumask_set_cpu (cpu pol) cpumask_clear)
    (cpus_allowed (current s)) = true ->
  exists s1,
    (current s1 = current s /\
     trace s1 = trace s ++ [Emutex_lock (cpu pol)]) /\
    forall r s2,
      set_cpu_freq pol f s1 = Ret r s2 ->
      exists s',
        msm_cpufreq_target pol target_freq relation s = Ret r s' /\
        trace s' = trace s2 ++ [Emutex_unlock (cpu pol)] /\
        current s' = current s2 /\
        (forall c, cpufreq_suspend s' c = cpufreq_suspend s c) /\
        cpufreq_work s' (cpu pol) =
          {| work := work (cpufreq_work s (cpu pol)); work_policy := Some pol;
             complete := complete (cpufreq_work s (cpu pol));
             frequency := f; status := - ENODEV |} /\
        (forall c, c <> cpu pol -> cpufreq_work s' c = cpufreq_work s c) /\
        @kworker P s' = @kworker P s.
Proof.
  intros Hactive Halloc Hfree Hawake Htable Hindex Hf Hmask.
  eexists. split; cycle 1.
  - intros r s2 Hrun.
    destruct (set_cpu_freq_frame _ _ _ _ _ Hrun) as (Hwork & Hsusp).
    pose proof (set_cpu_freq_kworker _ _ _ _ _ Hrun) as Hk.
    eexists. split.
    + target_prologue Hactive Halloc Hfree.
      eapply bind_Ret.
      { step. rewrite Hawake. cbn [Z.eqb negb].
        step. rewrite Htable, Hindex.
        eapply bind_Ret; [unfold table_frequency; rewrite Hf; reflexivity|]. cbn beta.
        step. step. step. step. rewrite Hmask.
        step. fields. exact Hrun. }
      cbn beta. step. step. reflexivity.
    + simp. rewrite Hwork, Hsusp, Hk. fields.
      split; [reflexivity|]. split; [reflexivity|].
      split; [intros c; apply gate_restored; [exact Hfree|exact Hawake]|].
      split; [reflexivity|]. split; [|reflexivity].
      intros c Hc. rewrite !upd_other by exact Hc. reflexivity.
  - simp. split; reflexivity.
Qed.

(** The worker and the wake-up, with all they leave behind. *)
Lemma worker_thread_full on c s pol f r s2 :
  work_policy (cpufreq_work s c) = Some pol ->
  frequency (cpufreq_work s c) = f ->
  set_cpu_freq pol f (worker_start on c s) = Ret r s2 ->
  exists s',
    worker_thread on c s = Ret tt s' /\
    trace s' = trace s2 ++ [Ecomplete c] /\
    hw_state s' = hw_state s2 /\
    current s' = current s /\
    cpufreq_work s' c =
      {| work := None; work_policy := Some pol;
         complete := S (complete (cpufreq_work s c)); frequency := f; status := r |} /\
    (forall c', c' <> c -> cpufreq_work s' c' = cpufreq_work s c') /\
    @cpufreq_suspend P s' = @cpufreq_suspend P s /\
    kworker s' on = current s2 /\
    (forall c', c' <> on -> kworker s' c' = kworker s c').
Proof.
  intros Hpol Hf Hrun.
  destruct (set_cpu_freq_frame _ _ _ _ _ Hrun) as (Hwork & Hsusp).
  pose proof (set_cpu_freq_kworker _ _ _ _ _ Hrun) as Hk.
  assert (Hbody : exists s3,
            bind P (set_work P c (put_work None)) (fun _ => set_cpu_work c)
              (with_current (kworker s on) s) = Ret tt s3 /\
            trace s3 = trace s2 ++ [Ecomplete c] /\
            hw_state s3 = hw_state s2 /\
            current s3 = current s2 /\
            cpufreq_work s3 c =
              {| work := None; work_policy := Some pol;
                 complete := S (complete (cpufreq_work s c)); frequency := f;
                 status := r |} /\
            (forall c', c' <> c -> cpufreq_work s3 c' = cpufreq_work s c') /\
            @cpufreq_suspend P s3 = @cpufreq_suspend P s /\
            @kworker P s3 = @kworker P s).
  { eexists. split.
    - step. unfold set_cpu_work.
      step. rewrite Hpol, Hf.
      eapply bind_Ret; [exact Hrun|]. cbn beta.
      step. unfold do_complete. step. prim. reflexivity.
    - simp. rewrite Hwork, Hsusp, Hk. unfold worker_start. fields.
      rewrite Hpol, Hf. repeat split.
      intros c' Hc'. rewrite !upd_other by exact Hc'. reflexivity. }
  destruct Hbody as (s3 & Hbody & Ht3 & Hh3 & Hc3 & Hw3 & Ho3 & Hsu3 & Hk3).
  eexists. split.
  { unfold worker_thread. rewrite Hbody. reflexivity. }
  simp. rewrite Hk3, Hc3.
  repeat match goal with |- _ /\ _ => split end; try assumption; try reflexivity.
  intros c' Hc'. rewrite upd_other by exact Hc'. reflexivity.
Qed.

Lemma wait_for_completion_full on c s pol f r s2 :
  complete (cpufreq_work s c) = 0%nat ->
  work (cpufreq_work s c) = Some on ->
  work_policy (cpufreq_work s c) = Some pol ->
  frequency (cpufreq_work s c) = f ->
  set_cpu_freq pol f (worker_start on c (asleep c s)) = Ret r s2 ->
  exists s',
    wait_for_completion c s = Ret tt s' /\
    trace s' = trace s2 ++ [Ecomplete c] /\
    hw_state s' = hw_state s2 /\
    current s' = current s /\
    cpufreq_work s' c =
      {| work := None; work_policy := Some pol; complete := 0%nat;
         frequency := f; status := r |} /\
    (forall c', c' <> c -> cpufreq_work s' c' = cpufreq_work s c') /\
    @cpufreq_suspend P s' = @cpufreq_suspend P s /\
    kworker s' on = current s2 /\
    (forall c', c' <> on -> kworker s' c' = kworker s c').
Proof.
  intros Hdone Hwork Hpol Hf Hrun.
  destruct (worker_thread_full on c (asleep c s) pol f r s2 Hpol Hf Hrun)
    as (s3 & Hw & Ht3 & Hh3 & Hc3 & Hw3 & Ho3 & Hsu3 & Hk3 & Hko3).
  eexists. split.
  { unfold wait_for_completion. step. step. rewrite Hdone, Hwork.
    eapply bind_Ret; [exact Hw|]. cbn beta.
    step. rewrite Hw3. simp. prim. reflexivity. }
  simp. rewrite Hw3. fields.
  unfold asleep in Hc3, Ho3, Hsu3, Hko3 |- *.
  cbn [cpufreq_work cpufreq_suspend kworker current with_trace] in *.
  rewrite Hdone.
  repeat match goal with |- _ /\ _ => split end; try assumption; try reflexivity.
  intros c' Hc'. rewrite upd_other by exact Hc'. apply Ho3. exact Hc'.
Qed.

Ltac woken_full pol f r s2 Hrun c st :=
  let H1 := fresh in let H2 := fresh in let H3 := fresh in let H4 := fresh in
  assert (H1 : complete (cpufreq_work st c) = 0%nat) by (fields; reflexivity);
  assert (H2 : work (cpufreq_work st c) = Some c) by (fields; reflexivity);
  assert (H3 : work_policy (cpufreq_work st c) = Some pol) by (fields; reflexivity);
  assert (H4 : frequency (cpufreq_work st c) = f) by (fields; reflexivity);
  destruct (ex_final _ _ _ _
              (wait_for_completion_full c c st pol f r s2 H1 H2 H3 H4 Hrun))
    as (Hw & Ht & Hh & Hc & Hwk & Hot & Hsu & Hkw & Hko).

Lemma target_full_remote pol target_freq relation s table index f :
  cpu_active P (cpu pol) (hw_state s) = true ->
  fst (alloc_cpumask_var P (hw_state s)) = true ->
  suspend_mutex (cpufreq_suspend s (cpu pol)) = false ->
  device_suspended (cpufreq_suspend s (cpu pol)) = 0 ->
  cpufreq_frequency_get_table P (cpu pol)
    (snd (alloc_cpumask_var P (hw_state s))) = Some table ->
  cpufreq_frequency_table_target P pol table target_freq relation = Some index ->
  nth_error table index = Some f ->
  cpumask_equal (cpumask_set_cpu (cpu pol) cpumask_clear)
    (cpus_allowed (current s)) = false ->
  exists s1,
    (current s1 = kworker s (cpu pol) /\
     trace s1 = trace s ++ [Emutex_lock (cpu pol); Ecancel_work_sync (cpu pol);
                            EINIT_COMPLETION (cpu pol);
                            Equeue_work_on (cpu pol) (cpu pol);
                            Ewait_for_completion (cpu pol)]) /\
    forall r s2,
      set_cpu_freq pol f s1 = Ret r s2 ->
      exists s',
        msm_cpufreq_target pol target_freq relation s = Ret r s' /\
        trace s' = trace s2 ++ [Ecomplete (cpu pol); Emutex_unlock (cpu pol)] /\
        current s' = current s /\
        (forall c, cpufreq_suspend s' c = cpufreq_suspend s c) /\
        cpufreq_work s' (cpu pol) =
          {| work := None; work_policy := Some pol; complete := 0%nat;
             frequency := f; status := r |} /\
        (forall c, c <> cpu pol -> cpufreq_work s' c = cpufreq_work s c) /\
        kworker s' (cpu pol) = current s2 /\
        (forall c, c <> cpu pol -> kworker s' c = kworker s c).
Proof.
  intros Hactive Halloc Hfree Hawake Htable Hindex Hf Hne.
  eexists. split; cycle 1.
  - intros r s2 Hrun.
    eexists. split.
    + target_prologue Hactive Halloc Hfree.
      eapply bind_Ret.
      { step. rewrite Hawake. cbn [Z.eqb negb].
        step. rewrite Htable, Hindex.
        eapply bind_Ret; [unfold table_frequency; rewrite Hf; reflexivity|]. cbn beta.
        step. step. step. step. rewrite Hne.
        step. step. step.
        match goal with
        | |- bind P (wait_for_completion ?c) _ ?st = _ =>
            woken_full pol f r s2 Hrun c st
        end.
        eapply bind_Ret; [exact Hw|]. cbn beta.
        prim. rewrite Hwk. reflexivity. }
      cbn beta. step. step. reflexivity.
    + simp.
      match goal with
      | |- context [final (wait_for_completion ?c ?st)] =>
          woken_full pol f r s2 Hrun c st
      end.
      rewrite Ht, Hc, Hwk, Hsu, Hkw. simp. rewrite <- app_assoc.
      split; [reflexivity|]. split; [reflexivity|].
      split; [intros c; apply gate_restored; [exact Hfree|exact Hawake]|].
      split; [reflexivity|].
      split; [intros c Hc'; rewrite (Hot c Hc'); simp;
              rewrite !upd_other by exact Hc'; reflexivity|].
      split; [reflexivity|].
      intros c Hc'. rewrite (Hko c Hc'). reflexivity.
  - unfold worker_start, asleep. simp. rewrite <- !app_assoc. repeat split.
Qed.

Lemma set_cpu_freq_current pol new_freq s r s2 :
  set_cpu_freq pol new_freq s = Ret r s2 ->
  0 <= policy (current s) ->
  current s2 = current s.
Proof.
  intros H Hclass.
  destruct (set_cpu_freq_run pol new_freq s) as (s' & Hrun & _ & _ & Hcur & _).
  rewrite H in Hrun. injection Hrun as _ <-.
  rewrite Hcur. rewrite (proj2 (Z.geb_le _ _) Hclass), andb_true_r.
  destruct (elevates (current s) pol new_freq); [destruct (current s)|]; reflexivity.
Qed.

(** Every way [msm_cpufreq_target] returns, entered with the mutex of the cpu
    free. *)
Lemma target_outcome pol target_freq relation s r s' :
  suspend_mutex (cpufreq_suspend s (cpu pol)) = false ->
  msm_cpufreq_target pol target_freq relation s = Ret r s' ->
  (forall c, cpufreq_suspend s' c = cpufreq_suspend s c) /\
  (forall c, c <> cpu pol ->
     cpufreq_work s' c = cpufreq_work s c /\ kworker s' c = kworker s c) /\
  (0 <= policy (current s) -> 0 <= policy (kworker s (cpu pol)) ->
   current s' = current s /\ kworker s' (cpu pol) = kworker s (cpu pol)) /\
  exists calls,
    trace s' = trace s ++ calls /\
    ((set_rate_calls calls = [] /\
      In r [- ENODEV; - ENOMEM; - EFAULT; - EINVAL] /\
      @cpufreq_work P s' = @cpufreq_work P s) \/
     (exists table index f,
        cpufreq_frequency_get_table P (cpu pol)
          (snd (alloc_cpumask_var P (hw_state s))) = Some table /\
        cpufreq_frequency_table_target P pol table target_freq relation = Some index /\
        nth_error table index = Some f /\
        set_rate_calls calls = [Eacpuclk_set_rate (cpu pol) f])).
Proof.
  intros Hfree Hret.
  destruct (cpu_active P (cpu pol) (hw_state s)) eqn:Ha.
  2:{ rewrite target_run_inactive in Hret by exact Ha. injection Hret as <- <-.
      split; [reflexivity|]. split; [intros; split; reflexivity|].
      split; [intros; split; reflexivity|].
      exists []. rewrite app_nil_r. split; [reflexivity|].
      left. split; [reflexivity|]. split; [|reflexivity].
      cbn [In]. repeat (first [left; reflexivity | right]). }
  destruct (fst (alloc_cpumask_var P (hw_state s))) eqn:Hm.
  2:{ rewrite target_run_enomem in Hret by assumption. injection Hret as <- <-.
      split; [reflexivity|]. split; [intros; split; reflexivity|].
      split; [intros; split; reflexivity|].
      exists []. rewrite app_nil_r. split; [reflexivity|].
      left. split; [reflexivity|]. split; [|reflexivity].
      cbn [In]. repeat (first [left; reflexivity | right]). }
  destruct (Z.eq_dec (device_suspended (cpufreq_suspend s (cpu pol))) 0) as [Hs|Hs].
  2:{ destruct (target_full_suspended pol target_freq relation s Ha Hm Hfree Hs)
        as (s0 & Hrun & Htr & Hg & Hw & Hk & Hc).
      rewrite Hrun in Hret. injection Hret as <- <-.
      split; [exact Hg|]. rewrite Hw, Hk, Hc.
      split; [intros; split; reflexivity|].
      split; [intros; split; reflexivity|].
      eexists. split; [exact Htr|]. left. split; [reflexivity|]. split; [|reflexivity].
      cbn [In]. repeat (first [left; reflexivity | right]). }
  destruct (cpufreq_frequency_get_table P (cpu pol)
              (snd (alloc_cpumask_var P (hw_state s)))) as [table|] eqn:Htable.
  2:{ destruct (target_full_oops pol target_freq relation s Ha Hm Hfree Hs) as (s0 & H0).
      { rewrite Htable. exact I. }
      rewrite H0 in Hret. discriminate. }
  destruct (cpufreq_frequency_table_target P pol table target_freq relation)
    as [index|] eqn:Hindex.
  2:{ destruct (target_full_invalid pol target_freq relation s table
                  Ha Hm Hfree Hs Htable Hindex)
        as (s0 & Hrun & Htr & Hg & Hw & Hk & Hc).
      rewrite Hrun in Hret. injection Hret as <- <-.
      split; [exact Hg|]. rewrite Hw, Hk, Hc.
      split; [intros; split; reflexivity|].
      split; [intros; split; reflexivity|].
      eexists. split; [exact Htr|]. left. split; [reflexivity|]. split; [|reflexivity].
      cbn [In]. repeat (first [left; reflexivity | right]). }
  destruct (nth_error table index) as [f|] eqn:Hf.
  2:{ destruct (target_full_oops pol target_freq relation s Ha Hm Hfree Hs) as (s0 & H0).
      { rewrite Htable. exists index. split; assumption. }
      rewrite H0 in Hret. discriminate. }
  destruct (cpumask_equal (cpumask_set_cpu (cpu pol) cpumask_clear)
              (cpus_allowed (current s))) eqn:Hmask.
  - destruct (target_full_inline pol target_freq relation s table index f
                Ha Hm Hfree Hs Htable Hindex Hf Hmask)
      as (s1 & (Hc1 & Ht1) & Hgo).
    destruct (set_cpu_freq_run pol f s1) as (s2 & Hrun & _).
    destruct (Hgo _ _ Hrun) as (s0 & Htarget & Htr & Hc & Hg & Hw & Ho & Hk).
    rewrite Htarget in Hret. injection Hret as <- <-.
    destruct (set_cpu_freq_calls _ _ _ _ _ Hrun) as (calls & Htr2 & Hrate & _).
    split; [exact Hg|].
    split; [intros c Hc'; split; [apply Ho; exact Hc'|rewrite Hk; reflexivity]|].
    split.
    { intros Hp _. rewrite Hc, Hk. split; [|reflexivity].
      rewrite <- Hc1. apply (set_cpu_freq_current _ _ _ _ _ Hrun).
      rewrite Hc1. exact Hp. }
    exists ([Emutex_lock (cpu pol)] ++ calls ++ [Emutex_unlock (cpu pol)]).
    split.
    { rewrite Htr, Htr2, Ht1. rewrite <- !app_assoc. reflexivity. }
    right. exists table, index, f. repeat split; try assumption.
    unfold set_rate_calls in *. rewrite !filter_app, Hrate. reflexivity.
  - destruct (target_full_remote pol target_freq relation s table index f
                Ha Hm Hfree Hs Htable Hindex Hf Hmask)
      as (s1 & (Hc1 & Ht1) & Hgo).
    destruct (set_cpu_freq_run pol f s1) as (s2 & Hrun & _).
    destruct (Hgo _ _ Hrun) as (s0 & Htarget & Htr & Hc & Hg & Hw & Ho & Hk & Hko).
    rewrite Htarget in Hret. injection Hret as <- <-.
    destruct (set_cpu_freq_calls _ _ _ _ _ Hrun) as (calls & Htr2 & Hrate & _).
    split; [exact Hg|].
    split; [intros c Hc'; split; [apply Ho; exact Hc'|apply Hko; exact Hc']|].
    split.
    { intros _ Hp. split; [exact Hc|]. rewrite Hk, <- Hc1.
      apply (set_cpu_freq_current _ _ _ _ _ Hrun). rewrite Hc1. exact Hp. }
    exists ([Emutex_lock (cpu pol); Ecancel_work_sync (cpu pol);
             EINIT_COMPLETION (cpu pol); Equeue_work_on (cpu pol) (cpu pol);
             Ewait_for_completion (cpu pol)]
            ++ calls ++ [Ecomplete (cpu pol); Emutex_unlock (cpu pol)]).
    split.
    { rewrite Htr, Htr2, Ht1. rewrite <- !app_assoc. reflexivity. }
    right. exists table, index, f. repeat split; try assumption.
    unfold set_rate_calls in *. rewrite !filter_app, Hrate. reflexivity.
Qed.

(** *** Further properties of [msm_cpufreq_target] *)

(** X4.  Entered with the mutex of its cpu free, [msm_cpufreq_target] on
    every return leaves the mutex and the suspended flag of every cpu as they
    were at entry: the mutex it takes is released on each return path and no
    flag is written. *)
Theorem target_releases_mutex pol target_freq relation s r s'
    (Hfree : suspend_mutex (cpufreq_suspend s (cpu pol)) = false)
    (Hret : msm_cpufreq_target pol target_freq relation s = Ret r s') :
  forall c, cpufreq_suspend s' c = cpufreq_suspend s c.
Proof.
  apply (target_outcome pol target_freq relation s r s' Hfree Hret).
Qed.

(** X5.  A call of [msm_cpufreq_target] that returns has called the clock
    driver at most once.  When it has, the call was for the cpu of the policy
    and for the frequency at the index the table lookup gave; when it has
    not, the value returned is one of [-ENODEV], [-ENOMEM], [-EFAULT],
    [-EINVAL] and no work descriptor was written. *)
Theorem target_sets_table_rate pol target_freq relation s r s'
    (Hfree : suspend_mutex (cpufreq_suspend s (cpu pol)) = false)
    (Hret : msm_cpufreq_target pol target_freq relation s = Ret r s') :
  exists calls,
    trace s' = trace s ++ calls /\
    ((set_rate_calls calls = [] /\
      In r [- ENODEV; - ENOMEM; - EFAULT; - EINVAL] /\
      @cpufreq_work P s' = @cpufreq_work P s) \/
     (exists table index f,
        cpufreq_frequency_get_table P (cpu pol)
          (snd (alloc_cpumask_var P (hw_state s))) = Some table /\
        cpufreq_frequency_table_target P pol table target_freq relation = Some index /\
        nth_error table index = Some f /\
        set_rate_calls calls = [Eacpuclk_set_rate (cpu pol) f])).
Proof.
  apply (target_outcome pol target_freq relation s r s' Hfree Hret).
Qed.

(** X6.  [msm_cpufreq_target] for one cpu never touches the work descriptor,
    completion or worker task of another cpu. *)
Theorem target_other_cpus pol target_freq relation s r s'
    (Hfree : suspend_mutex (cpufreq_suspend s (cpu pol)) = false)
    (Hret : msm_cpufreq_target pol target_freq relation s = Ret r s') :
  forall c, c <> cpu pol ->
    cpufreq_work s' c = cpufreq_work s c /\ kworker s' c = kworker s c.
Proof.
  apply (target_outcome pol target_freq relation s r s' Hfree Hret).
Qed.

(** X7.  When [msm_cpufreq_target] returns, the calling task and the worker
    of the cpu have the scheduling class and priority they had at entry
    (their classes being the scheduler's, none of which is negative):
    whichever of the two ran the transition was raised for it at most
    temporarily. *)
Theorem target_keeps_tasks pol target_freq relation s r s'
    (Hfree : suspend_mutex (cpufreq_suspend s (cpu pol)) = false)
    (Hcaller : 0 <= policy (current s))
    (Hworker : 0 <= policy (kworker s (cpu pol)))
    (Hret : msm_cpufreq_target pol target_freq relation s = Ret r s') :
  current s' = current s /\ forall c, kworker s' c = kworker s c.
Proof.
  destruct (target_outcome pol target_freq relation s r s' Hfree Hret)
    as (_ & Hother & Htasks & _).
  destruct (Htasks Hcaller Hworker) as (Hc & Hk).
  split; [exact Hc|]. intros c.
  destruct (Nat.eq_dec c (cpu pol)) as [->|Hne]; [exact Hk|].
  apply Hother. exact Hne.
Qed.

(** X8.  A target no table entry satisfies: [msm_cpufreq_target] returns
    [-EINVAL] having only taken and released the mutex; the work descriptors,
    the tasks and the suspend state are as they were. *)
Theorem target_invalid pol target_freq relation s table
    (Hactive : cpu_active P (cpu pol) (hw_state s) = true)
    (Halloc : fst (alloc_cpumask_var P (hw_state s)) = true)
    (Hfree : suspend_mutex (cpufreq_suspend s (cpu pol)) = false)
    (Hawake : device_suspended (cpufreq_suspend s (cpu pol)) = 0)
    (Htable : cpufreq_frequency_get_table P (cpu pol)
                (snd (alloc_cpumask_var P (hw_state s))) = Some table)
    (Hlookup : cpufreq_frequency_table_target P pol table target_freq relation = None) :
  exists s',
    msm_cpufreq_target pol target_freq relation s = Ret (- EINVAL) s' /\
    trace s' = trace s ++ [Emutex_lock (cpu pol); Emutex_unlock (cpu pol)] /\
    (forall c, cpufreq_suspend s' c = cpufreq_suspend s c) /\
    @cpufreq_work P s' = @cpufreq_work P s /\
    @kworker P s' = @kworker P s /\
    current s' = current s.
Proof.
  apply (target_full_invalid pol target_freq relation s table); assumption.
Qed.



(** *** Further properties of [msm_cpufreq_init] *)

(** Everything [msm_cpufreq_init] leaves behind once a lookup gave [index]. *)
Lemma init_full pol s table index f :
  cpufreq_frequency_get_table P (cpu pol) (hw_state s) = Some table ->
  let pol1 := init_limits P pol table in
  let cur_freq := acpuclk_get_rate P (cpu pol1) (hw_state s) in
  let rh := acpuclk_set_rate P (cpu pol1) f (hw_state s) in
  let normalise := negb (cur_freq =? f) in
  let h := if normalise then snd rh else hw_state s in
  let calls := if normalise then [Eacpuclk_set_rate (cpu pol1) f] else [] in
  init_index P pol1 table cur_freq = Some index ->
  nth_error table index = Some f ->
  if normalise && negb (fst rh =? 0) then
    msm_cpufreq_init pol s =
    Ret (fst rh, pol1) (with_hw (snd rh) (with_trace (trace s ++ calls) s))
  else
    exists s',
      msm_cpufreq_init pol s =
      Ret (0, put_transition_latency
                ((acpuclk_get_switch_time P h * NSEC_PER_USEC) mod 2 ^ 32)
                (put_cur f pol1)) s' /\
      trace s' = trace s ++ calls /\
      hw_state s' = h /\
      current s' = current s /\
      @kworker P s' = @kworker P s /\
      @cpufreq_suspend P s' = @cpufreq_suspend P s /\
      cpufreq_work s' (cpu pol1) =
        put_complete 0 (put_work None (cpufreq_work s (cpu pol1))) /\
      (forall c, c <> cpu pol1 -> cpufreq_work s' c = cpufreq_work s c).
Proof.
  intros Htable pol1 cur_freq rh normalise h calls Hindex Hf.
  subst normalise h calls.
  destruct (Z.eqb_spec cur_freq f) as [Hcur|Hcur]; cbn [negb andb].
  - eexists. split.
    + unfold msm_cpufreq_init. step. rewrite Htable.
      fold pol1. step. fold cur_freq. rewrite Hindex.
      eapply bind_Ret; [unfold table_frequency; rewrite Hf; reflexivity|]. cbn beta.
      rewrite (proj2 (Z.eqb_eq cur_freq f) Hcur). cbn [negb].
      step. rewrite Hcur. step. step. prim. reflexivity.
    + fields. rewrite app_nil_r. repeat split.
      intros c Hc. rewrite !upd_other by exact Hc. reflexivity.
  - destruct (Z.eqb_spec (fst rh) 0) as [Hr|Hr]; cbn [negb].
    + eexists. split.
      * unfold msm_cpufreq_init. step. rewrite Htable.
        fold pol1. step. fold cur_freq. rewrite Hindex.
        eapply bind_Ret; [unfold table_frequency; rewrite Hf; reflexivity|]. cbn beta.
        rewrite (proj2 (Z.eqb_neq cur_freq f) Hcur). cbn [negb].
        eapply bind_Ret.
        { unfold do_acpuclk_set_rate. step.
          fold rh. rewrite Hr. reflexivity. }
        cbn beta iota. step. step. prim. reflexivity.
      * fields. repeat split.
        intros c Hc. rewrite !upd_other by exact Hc. reflexivity.
    + unfold msm_cpufreq_init. step. rewrite Htable.
      fold pol1. step. fold cur_freq. rewrite Hindex.
      eapply bind_Ret; [unfold table_frequency; rewrite Hf; reflexivity|]. cbn beta.
      rewrite (proj2 (Z.eqb_neq cur_freq f) Hcur). cbn [negb].
      eapply bind_Ret.
      { unfold do_acpuclk_set_rate. step.
        fold rh. rewrite (proj2 (Z.eqb_neq (fst rh) 0) Hr). reflexivity. }
      reflexivity.
Qed.

Lemma init_run_no_table pol s :
  cpufreq_frequency_get_table P (cpu pol) (hw_state s) = None ->
  msm_cpufreq_init pol s = Ret (- ENODEV, pol) s.
Proof.
  intros Htable. unfold msm_cpufreq_init. step. rewrite Htable. reflexivity.
Qed.

Lemma init_run_oops pol s table index :
  cpufreq_frequency_get_table P (cpu pol) (hw_state s) = Some table ->
  let pol1 := init_limits P pol table in
  let cur_freq := acpuclk_get_rate P (cpu pol1) (hw_state s) in
  init_index P pol1 table cur_freq = Some index ->
  nth_error table index = None ->
  msm_cpufreq_init pol s = Halt Oops s.
Proof.
  intros Htable pol1 cur_freq Hindex Hf.
  unfold msm_cpufreq_init. step. rewrite Htable.
  fold pol1. step. fold cur_freq. rewrite Hindex.
  eapply bind_Halt. unfold table_frequency. rewrite Hf. reflexivity.
Qed.

(** Every way [msm_cpufreq_init] returns. *)
Lemma init_outcome pol s r pol' s' :
  msm_cpufreq_init pol s = Ret (r, pol') s' ->
  current s' = current s /\
  @kworker P s' = @kworker P s /\
  @cpufreq_suspend P s' = @cpufreq_suspend P s /\
  (exists calls,
     trace s' = trace s ++ calls /\
     (calls = [] \/
      exists table f, cpufreq_frequency_get_table P (cpu pol) (hw_state s) = Some table /\
                      In f table /\
                      calls = [Eacpuclk_set_rate (cpu (init_limits P pol table)) f])) /\
  (r <> 0 -> @cpufreq_work P s' = @cpufreq_work P s) /\
  (r = 0 ->
   exists table,
     cpufreq_frequency_get_table P (cpu pol) (hw_state s) = Some table /\
     let pol1 := init_limits P pol table in
     In (cur pol') table /\
     pol' = put_transition_latency
              ((acpuclk_get_switch_time P (hw_state s') * NSEC_PER_USEC) mod 2 ^ 32)
              (put_cur (cur pol') pol1) /\
     cpufreq_work s' (cpu pol1) =
       put_complete 0 (put_work None (cpufreq_work s (cpu pol1))) /\
     (forall c, c <> cpu pol1 -> cpufreq_work s' c = cpufreq_work s c) /\
     (trace s' = trace s -> cur pol' = acpuclk_get_rate P (cpu pol1) (hw_state s'))) /\
  (forall table, cpufreq_frequency_get_table P (cpu pol) (hw_state s) = Some table ->
     min pol' = min (init_limits P pol table) /\
     max pol' = max (init_limits P pol table) /\
     cpuinfo_min_freq pol' = cpuinfo_min_freq (init_limits P pol table) /\
     cpuinfo_max_freq pol' = cpuinfo_max_freq (init_limits P pol table) /\
     cpus pol' = cpus (init_limits P pol table) /\
     cpu pol' = cpu (init_limits P pol table)).
Proof.
  intros Hret.
  destruct (cpufreq_frequency_get_table P (cpu pol) (hw_state s)) as [table|] eqn:Htable.
  2:{ rewrite init_run_no_table in Hret by exact Htable.
      injection Hret as <- <- <-.
      split; [reflexivity|]. split; [reflexivity|]. split; [reflexivity|].
      split; [exists []; rewrite app_nil_r; split; [reflexivity|left; reflexivity]|].
      split; [reflexivity|]. split; [discriminate|]. discriminate. }
  set (pol1 := init_limits P pol table) in *.
  destruct (init_index P pol1 table (acpuclk_get_rate P (cpu pol1) (hw_state s)))
    as [index|] eqn:Hindex.
  2:{ rewrite (init_run_invalid pol s table Htable Hindex) in Hret.
      injection Hret as <- <- <-.
      split; [reflexivity|]. split; [reflexivity|]. split; [reflexivity|].
      split; [exists []; rewrite app_nil_r; split; [reflexivity|left; reflexivity]|].
      split; [reflexivity|]. split; [discriminate|].
      intros t [= <-]. repeat split. }
  destruct (nth_error table index) as [f|] eqn:Hf.
  2:{ rewrite (init_run_oops pol s table index Htable Hindex Hf) in Hret.
      discriminate. }
  pose proof (init_full pol s table index f Htable Hindex Hf) as Hfull.
  cbv zeta in Hfull. fold pol1 in Hfull.
  assert (Hin : In f table) by (apply nth_error_In with (n := index); exact Hf).
  destruct (negb (acpuclk_get_rate P (cpu pol1) (hw_state s) =? f)) eqn:Hnorm;
    cbn [andb] in Hfull.
  - destruct (negb (fst (acpuclk_set_rate P (cpu pol1) f (hw_state s)) =? 0)) eqn:Hr.
    + rewrite Hfull in Hret. injection Hret as <- <- <-.
      split; [reflexivity|]. split; [reflexivity|]. split; [reflexivity|].
      split.
      { eexists. split; [reflexivity|]. right. exists table, f. repeat split. exact Hin. }
      split; [reflexivity|]. split.
      { intros H0. rewrite H0 in Hr. discriminate. }
      intros t [= <-]. repeat split.
    + destruct Hfull as (s0 & Hrun & Htr & Hh & Hc & Hk & Hsu & Hw & Ho).
      rewrite Hrun in Hret. injection Hret as <- <- <-.
      split; [exact Hc|]. split; [exact Hk|]. split; [exact Hsu|].
      split.
      { eexists. split; [exact Htr|]. right. exists table, f. repeat split. exact Hin. }
      split; [intros H0; contradiction|]. split.
      { intros _. exists table. split; [reflexivity|]. cbv zeta. fold pol1.
        split; [exact Hin|]. rewrite Hh. split; [reflexivity|].
        split; [exact Hw|]. split; [exact Ho|].
        intros Hsame. rewrite Htr in Hsame. exfalso.
        apply (f_equal (@length event)) in Hsame. rewrite length_app in Hsame.
        cbn in Hsame. lia. }
      intros t [= <-]. repeat split.
  - destruct Hfull as (s0 & Hrun & Htr & Hh & Hc & Hk & Hsu & Hw & Ho).
    rewrite Hrun in Hret. injection Hret as <- <- <-.
    split; [exact Hc|]. split; [exact Hk|]. split; [exact Hsu|].
    split.
    { exists []. split; [exact Htr|]. left. reflexivity. }
    split; [intros H0; contradiction|]. split.
    { intros _. exists table. split; [reflexivity|]. cbv zeta. fold pol1.
      split; [exact Hin|]. rewrite Hh. split; [reflexivity|].
      split; [exact Hw|]. split; [exact Ho|].
      intros _. cbn [cur put_transition_latency put_cur].
      apply negb_false_iff, Z.eqb_eq in Hnorm. symmetry. exact Hnorm. }
    intros t [= <-]. repeat split.
Qed.


(** X12.  [msm_cpufreq_init] prepares the work descriptor of the cpu only
    when it succeeds: on a return of 0 the descriptor is idle (nothing
    pending, completion not signalled), its other fields and the descriptors
    of the other cpus are untouched; on any error return no descriptor is
    touched at all. *)
Theorem init_prepares_dispatch pol s r pol' s'
    (Hret : msm_cpufreq_init pol s = Ret (r, pol') s') :
  (r <> 0 -> @cpufreq_work P s' = @cpufreq_work P s) /\
  (r = 0 ->
   let w := cpufreq_work s (cpu pol') in
   cpufreq_work s' (cpu pol') =
     {| work := None; work_policy := work_policy w; complete := 0%nat;
        frequency := frequency w; status := status w |} /\
   forall c, c <> cpu pol' -> cpufreq_work s' c = cpufreq_work s c).
Proof.
  destruct (init_outcome pol s r pol' s' Hret) as (_ & _ & _ & _ & Hfail & Hok & Hpol).
  split; [exact Hfail|].
  intros H0. destruct (Hok H0) as (table & Htable & _ & _ & Hw & Ho & _).
  destruct (Hpol table Htable) as (_ & _ & _ & _ & _ & Hcpu).
  rewrite Hcpu. cbv zeta. split; [exact Hw|exact Ho].
Qed.

(** X13.  The policy [msm_cpufreq_init] hands back on success: its current
    frequency is an entry of the table; its transition latency is the clock
    driver's switch time in nanoseconds, wrapped to 32 bits; if no rate had
    to be set, the current frequency is the rate the clock reports. *)
Theorem init_policy_on_success pol s pol' s'
    (Hret : msm_cpufreq_init pol s = Ret (0, pol') s') :
  exists table,
    cpufreq_frequency_get_table P (cpu pol) (hw_state s) = Some table /\
    In (cur pol') table /\
    cpuinfo_transition_latency pol' =
      (acpuclk_get_switch_time P (hw_state s') * NSEC_PER_USEC) mod 2 ^ 32 /\
    0 <= cpuinfo_transition_latency pol' < 2 ^ 32 /\
    (trace s' = trace s ->
     msm_cpufreq_get_freq (cpu pol') s' = Ret (cur pol') s').
Proof.
  destruct (init_outcome pol s 0 pol' s' Hret) as (_ & _ & _ & _ & _ & Hok & Hpol).
  destruct (Hok eq_refl) as (table & Htable & Hin & Heq & _ & _ & Hrate).
  destruct (Hpol table Htable) as (_ & _ & _ & _ & _ & Hcpu).
  exists table. split; [exact Htable|]. split; [exact Hin|].
  assert (Hlat : cpuinfo_transition_latency pol' =
                 (acpuclk_get_switch_time P (hw_state s') * NSEC_PER_USEC) mod 2 ^ 32).
  { rewrite Heq at 1. reflexivity. }
  split; [exact Hlat|]. split.
  - rewrite Hlat. apply Z.mod_pos_bound. lia.
  - intros Hsame. unfold msm_cpufreq_get_freq, gets.
    rewrite Hcpu, <- (Hrate Hsame). reflexivity.
Qed.

(** The limits [CONFIG_MSM_CPU_FREQ_SET_MIN_MAX] imposes. *)
Lemma init_limits_config pol table lo hi :
  CONFIG_MSM_CPU_FREQ_SET_MIN_MAX P = Some (lo, hi) ->
  min (init_limits P pol table) = lo /\ max (init_limits P pol table) = hi.
Proof.
  intros Hcfg. unfold init_limits. rewrite Hcfg.
  destruct (cpufreq_frequency_table_cpuinfo P _ table) as [err pol1].
  split; reflexivity.
Qed.

(** X14.  With [CONFIG_MSM_CPU_FREQ_SET_MIN_MAX] set, whenever there is a
    table the policy [msm_cpufreq_init] hands back, on success or on error,
    has the configured minimum and maximum, whatever the table holds. *)
Theorem init_config_limits pol s r pol' s' table lo hi
    (Hcfg : CONFIG_MSM_CPU_FREQ_SET_MIN_MAX P = Some (lo, hi))
    (Htable : cpufreq_frequency_get_table P (cpu pol) (hw_state s) = Some table)
    (Hret : msm_cpufreq_init pol s = Ret (r, pol') s') :
  min pol' = lo /\ max pol' = hi.
Proof.
  destruct (init_outcome pol s r pol' s' Hret) as (_ & _ & _ & _ & _ & _ & Hpol).
  destruct (Hpol table Htable) as (Hmin & Hmax & _).
  destruct (init_limits_config pol table lo hi Hcfg) as (Hlo & Hhi).
  rewrite Hmin, Hmax. split; assumption.
Qed.

(** *** Further properties of the notifier, suspend, resume and registration *)

Lemma callback_full_down_prepare action hcpu s :
  In action [CPU_DOWN_PREPARE; CPU_DOWN_PREPARE_FROZEN] ->
  suspend_mutex (cpufreq_suspend s hcpu) = false ->
  exists s',
    msm_cpufreq_cpu_callback action hcpu s = Ret NOTIFY_OK s' /\
    trace s' = trace s ++ [Emutex_lock hcpu; Edevice_suspended hcpu 1;
                           Emutex_unlock hcpu] /\
    cpufreq_suspend s' hcpu = {| suspend_mutex := false; device_suspended := 1 |} /\
    (forall c, c <> hcpu -> cpufreq_suspend s' c = cpufreq_suspend s c) /\
    hw_state s' = hw_state s /\ current s' = current s /\
    @kworker P s' = @kworker P s /\ @cpufreq_work P s' = @cpufreq_work P s.
Proof.
  intros H Hfree. cbn [In] in H.
  assert (Hrun : exists s',
            bind P (bind P (mutex_lock P hcpu)
                      (fun _ => bind P (store_device_suspended P hcpu 1)
                                  (fun _ => mutex_unlock P hcpu)))
              (fun _ => ret P NOTIFY_OK) s = Ret NOTIFY_OK s' /\
            trace s' = trace s ++ [Emutex_lock hcpu; Edevice_suspended hcpu 1;
                                   Emutex_unlock hcpu] /\
            cpufreq_suspend s' hcpu = {| suspend_mutex := false; device_suspended := 1 |} /\
            (forall c, c <> hcpu -> cpufreq_suspend s' c = cpufreq_suspend s c) /\
            hw_state s' = hw_state s /\ current s' = current s /\
            @kworker P s' = @kworker P s /\ @cpufreq_work P s' = @cpufreq_work P s).
  { eexists. split.
    - eapply bind_Ret; [|reflexivity].
      eapply bind_Ret; [apply mutex_lock_free; exact Hfree|]. cbn beta.
      step. prim. reflexivity.
    - simp. rewrite <- !app_assoc. repeat split.
      intros c Hc. rewrite !upd_other by exact Hc. reflexivity. }
  destruct H as [<-|[<-|[]]]; exact Hrun.
Qed.

Lemma callback_halts_held action hcpu s :
  In action [CPU_DOWN_PREPARE; CPU_DOWN_PREPARE_FROZEN] ->
  suspend_mutex (cpufreq_suspend s hcpu) = true ->
  msm_cpufreq_cpu_callback action hcpu s = Halt Blocked s.
Proof.
  intros H Hheld. cbn [In] in H.
  destruct H as [<-|[<-|[]]];
    (apply bind_Halt; apply bind_Halt; apply mutex_lock_held; exact Hheld).
Qed.

(** X15.  Whatever the action, the hotplug notifier writes nothing but the
    suspended flag of the cpu it is called for: the mutex of that cpu is as
    it was when the notifier returns, the suspend state of every other cpu,
    the work descriptors, the tasks and the collaborators' state are
    untouched. *)
Theorem callback_only_own_flag action hcpu s r s'
    (Hret : msm_cpufreq_cpu_callback action hcpu s = Ret r s') :
  suspend_mutex (cpufreq_suspend s' hcpu) = suspend_mutex (cpufreq_suspend s hcpu) /\
  (forall c, c <> hcpu -> cpufreq_suspend s' c = cpufreq_suspend s c) /\
  hw_state s' = hw_state s /\ current s' = current s /\
  @kworker P s' = @kworker P s /\ @cpufreq_work P s' = @cpufreq_work P s.
Proof.
  destruct (hotplug_actions_cases action) as [H|[H|H]].
  - rewrite callback_run_clear in Hret by exact H. injection Hret as _ <-.
    simp. repeat split. intros c Hc. rewrite upd_other by exact Hc. reflexivity.
  - destruct (suspend_mutex (cpufreq_suspend s hcpu)) eqn:Hheld.
    + rewrite callback_halts_held in Hret by assumption. discriminate.
    + destruct (callback_full_down_prepare action hcpu s H Hheld)
        as (s0 & Hrun & _ & Hown & Hoth & Hh & Hc & Hk & Hw).
      rewrite Hrun in Hret. injection Hret as _ <-.
      rewrite Hown. repeat split; assumption.
  - rewrite callback_run_other in Hret by exact H. injection Hret as _ <-.
    repeat split.
Qed.

(** X16.  A take-down that is prepared and then fails (or a cpu that is
    taken down and comes back online) ends with the cpu open again: after the
    second notification its flag is 0 and its mutex free, and no other cpu's
    suspend state has changed. *)
Theorem down_prepare_then_back down back hcpu s
    (Hdown : In down [CPU_DOWN_PREPARE; CPU_DOWN_PREPARE_FROZEN])
    (Hback : In back [CPU_ONLINE; CPU_ONLINE_FROZEN; CPU_DOWN_FAILED;
                      CPU_DOWN_FAILED_FROZEN])
    (Hfree : suspend_mutex (cpufreq_suspend s hcpu) = false) :
  exists s1 s2,
    msm_cpufreq_cpu_callback down hcpu s = Ret NOTIFY_OK s1 /\
    device_suspended (cpufreq_suspend s1 hcpu) = 1 /\
    msm_cpufreq_cpu_callback back hcpu s1 = Ret NOTIFY_OK s2 /\
    cpufreq_suspend s2 hcpu = {| suspend_mutex := false; device_suspended := 0 |} /\
    (forall c, c <> hcpu -> cpufreq_suspend s2 c = cpufreq_suspend s c) /\
    trace s2 = trace s ++ [Emutex_lock hcpu; Edevice_suspended hcpu 1;
                           Emutex_unlock hcpu; Edevice_suspended hcpu 0].
Proof.
  destruct (callback_full_down_prepare down hcpu s Hdown Hfree)
    as (s1 & Hrun1 & Htr1 & Hown & Hoth & _).
  exists s1. eexists. split; [exact Hrun1|].
  split; [rewrite Hown; reflexivity|].
  split; [apply callback_run_clear; exact Hback|].
  simp. rewrite Hown, Htr1, <- app_assoc. cbn [suspend_mutex app].
  repeat split.
  intros c Hc. rewrite upd_other by exact Hc. apply Hoth. exact Hc.
Qed.

(** A cpu whose suspended flag is set is never sent to the clock driver,
    however [msm_cpufreq_target] ends. *)
Lemma target_gated pol target_freq relation s :
  device_suspended (cpufreq_suspend s (cpu pol)) <> 0 ->
  exists calls,
    trace (final (msm_cpufreq_target pol target_freq relation s)) = trace s ++ calls /\
    set_rate_calls calls = [].
Proof.
  intros Hsuspended.
  destruct (cpu_active P (cpu pol) (hw_state s)) eqn:Ha.
  2:{ rewrite target_run_inactive by exact Ha.
      exists []. rewrite app_nil_r. split; reflexivity. }
  destruct (fst (alloc_cpumask_var P (hw_state s))) eqn:Hm.
  2:{ rewrite target_run_enomem by assumption.
      exists []. rewrite app_nil_r. split; reflexivity. }
  destruct (suspend_mutex (cpufreq_suspend s (cpu pol))) eqn:Hl.
  { rewrite target_run_blocked by assumption.
    exists []. rewrite app_nil_r. split; reflexivity. }
  destruct (target_run_suspended pol target_freq relation s Ha Hm Hl Hsuspended)
    as (s' & Hrun & Htr).
  rewrite Hrun. cbn [final]. rewrite Htr. eexists. split; reflexivity.
Qed.

(** X17.  Once the notifier has returned from preparing the take-down of a
    cpu, a frequency request for that cpu never reaches the clock driver; on
    a cpu still active (and the mask allocated) it is answered [-EFAULT]. *)
Theorem down_prepare_gates_target down pol target_freq relation s
    (Hdown : In down [CPU_DOWN_PREPARE; CPU_DOWN_PREPARE_FROZEN])
    (Hfree : suspend_mutex (cpufreq_suspend s (cpu pol)) = false) :
  exists s1,
    msm_cpufreq_cpu_callback down (cpu pol) s = Ret NOTIFY_OK s1 /\
    (exists calls,
       trace (final (msm_cpufreq_target pol target_freq relation s1)) = trace s1 ++ calls /\
       set_rate_calls calls = []) /\
    (cpu_active P (cpu pol) (hw_state s) = true ->
     fst (alloc_cpumask_var P (hw_state s)) = true ->
     returned (msm_cpufreq_target pol target_freq relation s1) = Some (- EFAULT)).
Proof.
  destruct (callback_full_down_prepare down (cpu pol) s Hdown Hfree)
    as (s1 & Hrun1 & _ & Hown & _ & Hh & _).
  assert (Hflag : device_suspended (cpufreq_suspend s1 (cpu pol)) <> 0).
  { rewrite Hown. discriminate. }
  exists s1. split; [exact Hrun1|]. split; [apply target_gated; exact Hflag|].
  intros Ha Hm. rewrite <- Hh in Ha, Hm.
  destruct (target_run_suspended pol target_freq relation s1 Ha Hm) as (s2 & Hrun & _).
  - rewrite Hown. reflexivity.
  - exact Hflag.
  - rewrite Hrun. reflexivity.
Qed.

(** Storing [v] in the flag of each cpu of a list: what else is left alone. *)
Lemma for_each_cpu_store_frame v l : forall s,
  exists s',
    for_each_cpu P l (fun c => store_device_suspended P c v) s = Ret tt s' /\
    (forall c, cpufreq_suspend s' c =
               if existsb (Nat.eqb c) l
               then {| suspend_mutex := suspend_mutex (cpufreq_suspend s c);
                       device_suspended := v |}
               else cpufreq_suspend s c) /\
    hw_state s' = hw_state s /\ current s' = current s /\
    @kworker P s' = @kworker P s /\ @cpufreq_work P s' = @cpufreq_work P s.
Proof.
  induction l as [|c0 l IH]; intros s.
  - exists s. repeat split.
  - destruct (IH (with_suspend c0
                    {| suspend_mutex := suspend_mutex (cpufreq_suspend s c0);
                       device_suspended := v |}
                    (with_trace (trace s ++ [Edevice_suspended c0 v]) s)))
      as (s' & Hrun & Hset & Hh & Hc & Hk & Hw).
    exists s'. split.
    { cbn [for_each_cpu]. eapply bind_Ret; [apply store_device_suspended_run|].
      exact Hrun. }
    split; [|repeat split; assumption].
    intros c. rewrite Hset. simp. cbn [existsb]. unfold upd.
    destruct (Nat.eqb_spec c c0) as [->|Hne]; cbn [orb].
    + destruct (existsb (Nat.eqb c0) l); reflexivity.
    + reflexivity.
Qed.

(** X18.  The suspend and resume handlers always return 0, and write nothing
    but the flags of the possible cpus: every such flag becomes 1 (suspend)
    or 0 (resume) whatever it was, so a resume also clears the flag of a cpu
    that hotplug had taken down; the mutexes, the suspend state of other
    cpus, the work descriptors, the tasks and the collaborators' state are
    untouched. *)
Theorem suspend_resume_frame pol s :
  (exists s',
     msm_cpufreq_suspend pol s = Ret 0 s' /\
     (forall c, cpufreq_suspend s' c =
                if existsb (Nat.eqb c) (possible_cpus P)
                then {| suspend_mutex := suspend_mutex (cpufreq_suspend s c);
                        device_suspended := 1 |}
                else cpufreq_suspend s c) /\
     hw_state s' = hw_state s /\ current s' = current s /\
     @kworker P s' = @kworker P s /\ @cpufreq_work P s' = @cpufreq_work P s) /\
  (exists s',
     msm_cpufreq_resume pol s = Ret 0 s' /\
     (forall c, cpufreq_suspend s' c =
                if existsb (Nat.eqb c) (possible_cpus P)
                then {| suspend_mutex := suspend_mutex (cpufreq_suspend s c);
                        device_suspended := 0 |}
                else cpufreq_suspend s c) /\
     hw_state s' = hw_state s /\ current s' = current s /\
     @kworker P s' = @kworker P s /\ @cpufreq_work P s' = @cpufreq_work P s).
Proof.
  split.
  - destruct (for_each_cpu_store_frame 1 (possible_cpus P) s) as (s' & Hrun & Hrest).
    exists s'. split; [|exact Hrest].
    unfold msm_cpufreq_suspend. eapply bind_Ret; [exact Hrun|reflexivity].
  - destruct (for_each_cpu_store_frame 0 (possible_cpus P) s) as (s' & Hrun & Hrest).
    exists s'. split; [|exact Hrest].
    unfold msm_cpufreq_resume. eapply bind_Ret; [exact Hrun|reflexivity].
Qed.

(** X19.  After a system-wide suspend, a frequency request for any possible
    cpu never reaches the clock driver. *)
Theorem suspend_gates_every_cpu pol0 pol target_freq relation s
    (Hpossible : In (cpu pol) (possible_cpus P)) :
  exists s1,
    msm_cpufreq_suspend pol0 s = Ret 0 s1 /\
    exists calls,
      trace (final (msm_cpufreq_target pol target_freq relation s1)) = trace s1 ++ calls /\
      set_rate_calls calls = [].
Proof.
  destruct (for_each_cpu_store_frame 1 (possible_cpus P) s) as (s1 & Hrun & Hset & _).
  exists s1. split.
  { unfold msm_cpufreq_suspend. eapply bind_Ret; [exact Hrun|reflexivity]. }
  apply target_gated. rewrite Hset.
  replace (existsb (Nat.eqb (cpu pol)) (possible_cpus P)) with true; [discriminate|].
  symmetry. apply existsb_exists. exists (cpu pol).
  split; [exact Hpossible|apply Nat.eqb_refl].
Qed.

(** X20.  Suspend followed by resume is a round trip on a system whose
    possible cpus were all open: the suspend state of every cpu is again what
    it was before the suspend. *)
Theorem suspend_then_resume pol s
    (Hopen : forall c, In c (possible_cpus P) ->
                       device_suspended (cpufreq_suspend s c) = 0) :
  exists s1 s2,
    msm_cpufreq_suspend pol s = Ret 0 s1 /\
    msm_cpufreq_resume pol s1 = Ret 0 s2 /\
    forall c, cpufreq_suspend s2 c = cpufreq_suspend s c.
Proof.
  destruct (suspend_resume_frame pol s) as ((s1 & Hrun1 & Hset1 & _) & _).
  destruct (suspend_resume_frame pol s1) as (_ & (s2 & Hrun2 & Hset2 & _)).
  exists s1, s2. split; [exact Hrun1|]. split; [exact Hrun2|].
  intros c. rewrite Hset2, Hset1.
  destruct (existsb (Nat.eqb c) (possible_cpus P)) eqn:E; [|reflexivity].
  apply existsb_exists in E. destruct E as (c0 & Hin & Heq).
  apply Nat.eqb_eq in Heq. subst c0.
  specialize (Hopen c Hin). destruct (cpufreq_suspend s c). cbn in *. subst.
  reflexivity.
Qed.

(** The loop of [msm_cpufreq_register]. *)
Lemma register_loop l : forall s,
  exists s',
    for_each_cpu P l
      (fun c => bind P (mutex_init P c) (fun _ => store_device_suspended P c 0)) s
    = Ret tt s' /\
    trace s' = trace s ++ map (fun c => Edevice_suspended c 0) l /\
    (forall c, cpufreq_suspend s' c =
               if existsb (Nat.eqb c) l
               then {| suspend_mutex := false; device_suspended := 0 |}
               else cpufreq_suspend s c) /\
    hw_state s' = hw_state s /\ current s' = current s /\
    @kworker P s' = @kworker P s /\ @cpufreq_work P s' = @cpufreq_work P s.
Proof.
  induction l as [|c0 l IH]; intros s.
  - exists s. cbn. rewrite app_nil_r. repeat split.
  - assert (Hbody : exists s1,
              bind P (mutex_init P c0) (fun _ => store_device_suspended P c0 0) s
              = Ret tt s1 /\
              trace s1 = trace s ++ [Edevice_suspended c0 0] /\
              (forall c, cpufreq_suspend s1 c =
                         if Nat.eqb c c0
                         then {| suspend_mutex := false; device_suspended := 0 |}
                         else cpufreq_suspend s c) /\
              hw_state s1 = hw_state s /\ current s1 = current s /\
              @kworker P s1 = @kworker P s /\ @cpufreq_work P s1 = @cpufreq_work P s).
    { eexists. split.
      - unfold mutex_init. step. prim. simp. reflexivity.
      - simp. repeat split. intros c. unfold upd.
        destruct (Nat.eqb c c0); reflexivity. }
    destruct Hbody as (s1 & Hrun1 & Htr1 & Hset1 & Hh1 & Hc1 & Hk1 & Hw1).
    destruct (IH s1) as (s' & Hrun & Htr & Hset & Hh & Hc & Hk & Hw).
    exists s'. split.
    { cbn [for_each_cpu]. eapply bind_Ret; [exact Hrun1|exact Hrun]. }
    split.
    { rewrite Htr, Htr1, <- app_assoc. reflexivity. }
    split.
    { intros c. rewrite Hset, Hset1. cbn [existsb].
      destruct (existsb (Nat.eqb c) l); [rewrite orb_true_r; reflexivity|].
      rewrite orb_false_r. reflexivity. }
    rewrite Hh, Hc, Hk, Hw. repeat split; assumption.
Qed.

(** X21.  [msm_cpufreq_register] hands over to [cpufreq_register_driver],
    whose result it returns, only after it has opened every possible cpu
    (flag 0, mutex initialised), whatever state it was entered in; until then
    it has not touched the work descriptors or the tasks, and it has taken no
    mutex. *)
Theorem register_opens_gates create_workqueue register_hotcpu_notifier
    (cpufreq_register_driver : M P Z) s :
  exists s1,
    msm_cpufreq_register create_workqueue register_hotcpu_notifier
      cpufreq_register_driver s = cpufreq_register_driver s1 /\
    (forall c, In c (possible_cpus P) ->
       cpufreq_suspend s1 c = {| suspend_mutex := false; device_suspended := 0 |}) /\
    (forall c, ~ In c (possible_cpus P) -> cpufreq_suspend s1 c = cpufreq_suspend s c) /\
    trace s1 = trace s ++ map (fun c => Edevice_suspended c 0) (possible_cpus P) /\
    hw_state s1 = register_hotcpu_notifier (create_workqueue (hw_state s)) /\
    current s1 = current s /\
    @kworker P s1 = @kworker P s /\ @cpufreq_work P s1 = @cpufreq_work P s.
Proof.
  destruct (register_loop (possible_cpus P) s)
    as (s0 & Hrun & Htr & Hset & Hh & Hc & Hk & Hw).
  eexists. split.
  { unfold msm_cpufreq_register.
    eapply bind_Ret; [exact Hrun|]. cbn beta.
    step. step. reflexivity. }
  simp. rewrite Hh. split; [|split].
  - intros c Hin. rewrite Hset.
    replace (existsb (Nat.eqb c) (possible_cpus P)) with true; [reflexivity|].
    symmetry. apply existsb_exists. exists c. split; [exact Hin|apply Nat.eqb_refl].
  - intros c Hout. rewrite Hset.
    destruct (existsb (Nat.eqb c) (possible_cpus P)) eqn:E; [|reflexivity].
    apply existsb_exists in E. destruct E as (c0 & Hin & Heq).
    apply Nat.eqb_eq in Heq. subst c0. contradiction.
  - repeat split; assumption.
Qed.

End Properties.

(** ** Runs on the board *)

(** C2, the claim as worded fails: a [SCHED_FIFO] task at priority 10 takes
    cpu 0 from 600 up to 900 and the scheduler is never called, so the task
    does the clock change at priority 10, not at [MAX_RT_PRIO - 1]. *)
Lemma set_cpu_freq_fifo_not_raised :
  900 > cur (policy_at 0 600) /\
  returned (set_cpu_freq (policy_at 0 600) 900
              (boot mhz (board_at 600 0 3 true) (task_at SCHED_FIFO 10 1) (fun _ => 0)))
  = Some 0 /\
  trace (final (set_cpu_freq (policy_at 0 600) 900
                  (boot mhz (board_at 600 0 3 true) (task_at SCHED_FIFO 10 1) (fun _ => 0))))
  = [Ecpufreq_notify_transition (freqs_of (policy_at 0 600) 900) CPUFREQ_PRECHANGE;
     Eacpuclk_set_rate 0 900;
     Ecpufreq_notify_transition (freqs_of (policy_at 0 600) 900) CPUFREQ_POSTCHANGE].
Proof.
  split; [reflexivity|]. split; vm_compute; reflexivity.
Qed.

Lemma set_cpu_freq_priority_witness :
  exists r s' between,
    set_cpu_freq (policy_at 0 600) 900
      (boot mhz (board_at 600 5 3 true) (task_at 0 0 1) (fun _ => 0)) = Ret r s' /\
    r = 5 /\
    trace s' = [] ++ [Esched_setscheduler SCHED_FIFO (MAX_RT_PRIO - 1)]
                  ++ between ++ [Esched_setscheduler 0 0] /\
    existsb is_sched between = false /\
    current s' = task_at 0 0 1.
Proof.
  apply (set_cpu_freq_priority (msm_board mhz) (policy_at 0 600) 900
           (boot mhz (board_at 600 5 3 true) (task_at 0 0 1) (fun _ => 0))).
  cbn. lia.
Defined.

(** The lookups of the spec's scenario on the board's table. *)
Example resolve_750_down : resolve [300; 600; 900] 750 CPUFREQ_RELATION_H = Some 1%nat.
Proof. reflexivity. Qed.

Example resolve_750_up : resolve [300; 600; 900] 750 CPUFREQ_RELATION_L = Some 2%nat.
Proof. reflexivity. Qed.

(** C1, the claim as worded fails: cpu 1 is down, its suspended flag set; a
    request for it is answered [-ENODEV], not [-EFAULT]. *)
Lemma target_suspended_inactive :
  device_suspended
    (cpufreq_suspend (boot mhz (board_at 600 0 1 true) (task_at 0 0 3) cpu1_down) 1) = 1 /\
  msm_cpufreq_target (policy_at 1 600) 900 CPUFREQ_RELATION_L
    (boot mhz (board_at 600 0 1 true) (task_at 0 0 3) cpu1_down)
  = Ret (- ENODEV) (boot mhz (board_at 600 0 1 true) (task_at 0 0 3) cpu1_down) /\
  - ENODEV <> - EFAULT.
Proof.
  split; [reflexivity|]. split; [reflexivity|]. discriminate.
Qed.

Lemma target_suspended_witness :
  exists s',
    msm_cpufreq_target (policy_at 1 600) 900 CPUFREQ_RELATION_L
      (boot mhz (board_at 600 0 3 true) (task_at 0 0 3) cpu1_down)
    = Ret (- EFAULT) s' /\
    trace s' = [] ++ [Emutex_lock 1; Emutex_unlock 1].
Proof.
  apply (proj2 (target_suspended (msm_board mhz) (policy_at 1 600) 900 CPUFREQ_RELATION_L
                  (boot mhz (board_at 600 0 3 true) (task_at 0 0 3) cpu1_down)
                  ltac:(discriminate)));
    reflexivity.
Defined.

Lemma target_dispatch_witness :
  exists (s1 : state (msm_board mhz)) r s2 s',
    current s1 = task_at 0 0 1 /\ @hw_state (msm_board mhz) s1 = board_at 600 0 3 true /\
    trace s1 = [] ++ [Emutex_lock 0; Ecancel_work_sync 0; EINIT_COMPLETION 0;
                      Equeue_work_on 0 0; Ewait_for_completion 0] /\
    set_cpu_freq (policy_at 0 600) 900 s1 = Ret r s2 /\
    msm_cpufreq_target (policy_at 0 600) 750 CPUFREQ_RELATION_L
      (boot mhz (board_at 600 0 3 true) (task_at 0 0 3) (fun _ => 0)) = Ret r s' /\
    trace s' = trace s2 ++ [Ecomplete 0; Emutex_unlock 0] /\
    status (cpufreq_work s' 0) = r /\
    current s' = task_at 0 0 3.
Proof.
  apply (proj2 (target_dispatch (msm_board mhz) (policy_at 0 600) 750 CPUFREQ_RELATION_L
                  (boot mhz (board_at 600 0 3 true) (task_at 0 0 3) (fun _ => 0))
                  [300; 600; 900] 2%nat 900
                  eq_refl eq_refl eq_refl eq_refl eq_refl eq_refl eq_refl)).
  intros H. specialize (H 1%N). discriminate H.
Defined.

(** C4, the claim as worded fails: the clock runs at 750, between two
    entries; rounding up succeeds (to 900), yet [msm_cpufreq_init] brings the
    clock down to 600, the entry the round-down lookup gives. *)
Lemma init_rounds_down_first :
  resolve [300; 600; 900] 750 CPUFREQ_RELATION_L = Some 2%nat /\
  nth_error [300; 600; 900] 2 = Some 900 /\
  option_map (fun rp => (fst rp, cur (snd rp)))
    (returned (msm_cpufreq_init (policy_at 0 0)
                 (boot mhz (board_at 750 0 3 true) (task_at 0 0 3) (fun _ => 0))))
  = Some (0, 600) /\
  trace (final (msm_cpufreq_init (policy_at 0 0)
                  (boot mhz (board_at 750 0 3 true) (task_at 0 0 3) (fun _ => 0))))
  = [Eacpuclk_set_rate 0 600].
Proof.
  repeat split; vm_compute; reflexivity.
Qed.

Lemma init_lookup_order_witness :
  exists r pol' s',
    msm_cpufreq_init (policy_at 0 0)
      (boot mhz (board_at 750 0 3 true) (task_at 0 0 3) (fun _ => 0))
    = Ret (r, pol') s' /\
    (r = 0 -> cur pol' = 600) /\
    (r <> 0 -> 750 <> 600 /\ r = 0).
Proof.
  apply (proj1 (init_lookup_order (msm_board mhz) (policy_at 0 0)
                  (boot mhz (board_at 750 0 3 true) (task_at 0 0 3) (fun _ => 0))
                  [300; 600; 900] eq_refl) 1%nat eq_refl 600 eq_refl).
Defined.

(** C6, the claim as worded fails: the suspend handler and the notifier on
    cpu-online store to the flags with no mutex taken. *)
Lemma stores_without_mutex :
  trace (final (msm_cpufreq_suspend (policy_at 0 600)
                  (boot mhz (board_at 600 0 3 true) (task_at 0 0 3) (fun _ => 0))))
  = [Edevice_suspended 0 1; Edevice_suspended 1 1] /\
  stores_under_mutex (fun _ => false)
    (trace (final (msm_cpufreq_suspend (policy_at 0 600)
                     (boot mhz (board_at 600 0 3 true) (task_at 0 0 3) (fun _ => 0)))))
  = false /\
  trace (final (msm_cpufreq_cpu_callback CPU_ONLINE 1
                  (boot mhz (board_at 600 0 3 true) (task_at 0 0 3) cpu1_down)))
  = [Edevice_suspended 1 0] /\
  stores_under_mutex (fun _ => false)
    (trace (final (msm_cpufreq_cpu_callback CPU_ONLINE 1
                     (boot mhz (board_at 600 0 3 true) (task_at 0 0 3) cpu1_down))))
  = false.
Proof.
  repeat split; vm_compute; reflexivity.
Qed.

Lemma lifecycle_stores_witness :
  exists s',
    msm_cpufreq_cpu_callback CPU_DOWN_PREPARE 1
      (boot mhz (board_at 600 0 3 true) (task_at 0 0 3) (fun _ => 0)) = Ret NOTIFY_OK s' /\
    trace s' = [] ++ [Emutex_lock 1; Edevice_suspended 1 1; Emutex_unlock 1] /\
    device_suspended (cpufreq_suspend s' 1) = 1 /\
    suspend_mutex (cpufreq_suspend s' 1) = false.
Proof.
  apply (proj1 (lifecycle_stores (msm_board mhz) CPU_DOWN_PREPARE 1 (policy_at 0 600)
                  (boot mhz (board_at 600 0 3 true) (task_at 0 0 3) (fun _ => 0)))).
  - left. reflexivity.
  - reflexivity.
Defined.

Lemma target_inactive_witness :
  msm_cpufreq_target (policy_at 1 600) 900 CPUFREQ_RELATION_L
    (boot mhz (board_at 600 0 1 true) (task_at 0 0 3) (fun _ => 0))
  = Ret (- ENODEV) (boot mhz (board_at 600 0 1 true) (task_at 0 0 3) (fun _ => 0)).
Proof.
  apply (target_inactive (msm_board mhz)). reflexivity.
Defined.

Lemma init_result_witness :
  exists pol' s',
    msm_cpufreq_init (policy_at 0 0)
      (boot mhz (board_at 750 0 3 true) (task_at 0 0 3) (fun _ => 0)) = Ret (0, pol') s' /\
    trace s' = [] ++ [Eacpuclk_set_rate 0 600] /\
    (0 = 0 -> cur pol' = 600).
Proof.
  apply (proj2 (init_result (msm_board mhz) (policy_at 0 0)
                  (boot mhz (board_at 750 0 3 true) (task_at 0 0 3) (fun _ => 0)))
           [300; 600; 900] 1%nat 600 eq_refl eq_refl eq_refl).
  discriminate.
Defined.

Lemma target_enomem_witness :
  exists s',
    msm_cpufreq_target (policy_at 0 600) 900 CPUFREQ_RELATION_L
      (boot mhz (board_at 600 0 3 false) (task_at 0 0 3) (fun _ => 0)) = Ret (- ENOMEM) s' /\
    s' = boot mhz (board_at 600 0 3 false) (task_at 0 0 3) (fun _ => 0) /\
    trace s' = [] /\
    @cpufreq_suspend _ s' = (fun c => {| suspend_mutex := false; device_suspended := 0 |}) /\
    @cpufreq_work _ s' = (fun _ => idle_work) /\
    current s' = task_at 0 0 3.
Proof.
  apply (target_enomem (msm_board mhz) (policy_at 0 600) 900 CPUFREQ_RELATION_L
           (boot mhz (board_at 600 0 3 false) (task_at 0 0 3) (fun _ => 0)));
    reflexivity.
Defined.

Lemma callback_frame_witness :
  msm_cpufreq_cpu_callback 7 1
    (boot mhz (board_at 600 0 3 true) (task_at 0 0 3) cpu1_down)
  = Ret NOTIFY_OK (boot mhz (board_at 600 0 3 true) (task_at 0 0 3) cpu1_down).
Proof.
  apply (proj1 (callback_frame (msm_board mhz) 7 1
                  (boot mhz (board_at 600 0 3 true) (task_at 0 0 3) cpu1_down))).
  unfold hotplug_actions. cbn. intros H.
  repeat (destruct H as [H|H]; [discriminate H|]). exact H.
Defined.

(** ** Runs on the board for the further properties *)

Lemma set_cpu_freq_not_upward_witness :
  exists s',
    set_cpu_freq (policy_at 0 600) 300 running = Ret 0 s' /\
    trace s' = [] ++ [Ecpufreq_notify_transition (freqs_of (policy_at 0 600) 300)
                        CPUFREQ_PRECHANGE;
                      Eacpuclk_set_rate 0 300]
                  ++ [Ecpufreq_notify_transition (freqs_of (policy_at 0 600) 300)
                        CPUFREQ_POSTCHANGE] /\
    current s' = task_at 0 0 3.
Proof.
  apply (set_cpu_freq_not_upward (msm_board mhz) (policy_at 0 600) 300 running).
  cbn. lia.
Defined.


Lemma target_releases_mutex_witness :
  cpufreq_suspend
    (final (msm_cpufreq_target (policy_at 0 600) 750 CPUFREQ_RELATION_L running)) 0
  = cpufreq_suspend running 0.
Proof.
  apply (target_releases_mutex (msm_board mhz) (policy_at 0 600) 750 CPUFREQ_RELATION_L
           running 0
           (final (msm_cpufreq_target (policy_at 0 600) 750 CPUFREQ_RELATION_L running))
           eq_refl).
  vm_compute. reflexivity.
Defined.

Lemma target_sets_table_rate_witness :
  exists calls,
    trace (final (msm_cpufreq_target (policy_at 0 600) 750 CPUFREQ_RELATION_L running))
    = trace running ++ calls /\
    ((set_rate_calls calls = [] /\
      In 0 [- ENODEV; - ENOMEM; - EFAULT; - EINVAL] /\
      @cpufreq_work _
        (final (msm_cpufreq_target (policy_at 0 600) 750 CPUFREQ_RELATION_L running))
      = @cpufreq_work _ running) \/
     (exists table index f,
        mhz = Some table /\
        resolve table 750 CPUFREQ_RELATION_L = Some index /\
        nth_error table index = Some f /\
        set_rate_calls calls = [Eacpuclk_set_rate 0 f])).
Proof.
  apply (target_sets_table_rate (msm_board mhz) (policy_at 0 600) 750 CPUFREQ_RELATION_L
           running 0
           (final (msm_cpufreq_target (policy_at 0 600) 750 CPUFREQ_RELATION_L running))
           eq_refl).
  vm_compute. reflexivity.
Defined.

Lemma target_other_cpus_witness :
  cpufreq_work
    (final (msm_cpufreq_target (policy_at 0 600) 750 CPUFREQ_RELATION_L running)) 1
  = cpufreq_work running 1 /\
  kworker
    (final (msm_cpufreq_target (policy_at 0 600) 750 CPUFREQ_RELATION_L running)) 1
  = kworker running 1.
Proof.
  apply (target_other_cpus (msm_board mhz) (policy_at 0 600) 750 CPUFREQ_RELATION_L
           running 0
           (final (msm_cpufreq_target (policy_at 0 600) 750 CPUFREQ_RELATION_L running))
           eq_refl).
  - vm_compute. reflexivity.
  - discriminate.
Defined.

Lemma target_keeps_tasks_witness :
  current (final (msm_cpufreq_target (policy_at 0 600) 750 CPUFREQ_RELATION_L running))
  = current running /\
  kworker (final (msm_cpufreq_target (policy_at 0 600) 750 CPUFREQ_RELATION_L running)) 0
  = kworker running 0.
Proof.
  destruct (target_keeps_tasks (msm_board mhz) (policy_at 0 600) 750 CPUFREQ_RELATION_L
              running 0
              (final (msm_cpufreq_target (policy_at 0 600) 750 CPUFREQ_RELATION_L running))
              eq_refl ltac:(cbn; lia) ltac:(cbn; lia) ltac:(vm_compute; reflexivity))
    as (Hc & Hk).
  split; [exact Hc|exact (Hk 0%nat)].
Defined.

Lemma target_invalid_witness :
  exists s',
    msm_cpufreq_target (policy_at 0 600) 950 CPUFREQ_RELATION_L running
    = Ret (- EINVAL) s' /\
    trace s' = trace running ++ [Emutex_lock 0; Emutex_unlock 0] /\
    (forall c, cpufreq_suspend s' c = cpufreq_suspend running c) /\
    @cpufreq_work _ s' = @cpufreq_work _ running /\
    @kworker _ s' = @kworker _ running /\
    current s' = current running.
Proof.
  apply (target_invalid (msm_board mhz) (policy_at 0 600) 950 CPUFREQ_RELATION_L
           running [300; 600; 900]); reflexivity.
Defined.




Lemma init_prepares_dispatch_witness :
  cpufreq_work (final (msm_cpufreq_init (policy_at 0 0) starting)) 0 =
    {| work := None; work_policy := None; complete := 0%nat; frequency := 0;
       status := 0 |}.
Proof.
  apply (proj1 (proj2 (init_prepares_dispatch (msm_board mhz) (policy_at 0 0) starting 0
                         (put_transition_latency 50000 (put_cur 600 (policy_at 0 0)))
                         (final (msm_cpufreq_init (policy_at 0 0) starting))
                         ltac:(vm_compute; reflexivity)) eq_refl)).
Defined.

Lemma init_policy_on_success_witness :
  exists table,
    mhz = Some table /\
    In 600 table /\
    50000 = (50 * NSEC_PER_USEC) mod 2 ^ 32 /\
    0 <= 50000 < 2 ^ 32 /\
    (trace (final (msm_cpufreq_init (policy_at 0 0) starting)) = trace starting ->
     msm_cpufreq_get_freq 0 (final (msm_cpufreq_init (policy_at 0 0) starting))
     = Ret 600 (final (msm_cpufreq_init (policy_at 0 0) starting))).
Proof.
  apply (init_policy_on_success (msm_board mhz) (policy_at 0 0) starting
           (put_transition_latency 50000 (put_cur 600 (policy_at 0 0)))
           (final (msm_cpufreq_init (policy_at 0 0) starting))).
  vm_compute. reflexivity.
Defined.

Lemma init_config_limits_witness :
  min (put_min_max 400 800 (put_transition_latency 50000 (put_cur 600 (policy_at 0 0))))
  = 400 /\
  max (put_min_max 400 800 (put_transition_latency 50000 (put_cur 600 (policy_at 0 0))))
  = 800.
Proof.
  apply (init_config_limits (msm_board_limits mhz 400 800) (policy_at 0 0)
           starting_limits 0
           (put_min_max 400 800 (put_transition_latency 50000 (put_cur 600 (policy_at 0 0))))
           (final (msm_cpufreq_init (policy_at 0 0) starting_limits))
           [300; 600; 900] 400 800 eq_refl eq_refl).
  vm_compute. reflexivity.
Defined.

Lemma callback_only_own_flag_witness :
  suspend_mutex (cpufreq_suspend (final (msm_cpufreq_cpu_callback CPU_DOWN_PREPARE 1 running)) 1)
  = suspend_mutex (cpufreq_suspend running 1) /\
  (forall c, c <> 1%nat ->
     cpufreq_suspend (final (msm_cpufreq_cpu_callback CPU_DOWN_PREPARE 1 running)) c
     = cpufreq_suspend running c) /\
  hw_state (final (msm_cpufreq_cpu_callback CPU_DOWN_PREPARE 1 running)) = hw_state running /\
  current (final (msm_cpufreq_cpu_callback CPU_DOWN_PREPARE 1 running)) = current running /\
  @kworker _ (final (msm_cpufreq_cpu_callback CPU_DOWN_PREPARE 1 running))
  = @kworker _ running /\
  @cpufreq_work _ (final (msm_cpufreq_cpu_callback CPU_DOWN_PREPARE 1 running))
  = @cpufreq_work _ running.
Proof.
  apply (callback_only_own_flag (msm_board mhz) CPU_DOWN_PREPARE 1 running NOTIFY_OK
           (final (msm_cpufreq_cpu_callback CPU_DOWN_PREPARE 1 running))).
  vm_compute. reflexivity.
Defined.

Lemma down_prepare_then_back_witness :
  exists s1 s2,
    msm_cpufreq_cpu_callback CPU_DOWN_PREPARE 1 running = Ret NOTIFY_OK s1 /\
    device_suspended (cpufreq_suspend s1 1) = 1 /\
    msm_cpufreq_cpu_callback CPU_DOWN_FAILED 1 s1 = Ret NOTIFY_OK s2 /\
    cpufreq_suspend s2 1 = {| suspend_mutex := false; device_suspended := 0 |} /\
    (forall c, c <> 1%nat -> cpufreq_suspend s2 c = cpufreq_suspend running c) /\
    trace s2 = trace running ++ [Emutex_lock 1; Edevice_suspended 1 1;
                                 Emutex_unlock 1; Edevice_suspended 1 0].
Proof.
  apply (down_prepare_then_back (msm_board mhz) CPU_DOWN_PREPARE CPU_DOWN_FAILED 1 running).
  - left. reflexivity.
  - right. right. left. reflexivity.
  - reflexivity.
Defined.

Lemma down_prepare_gates_target_witness :
  exists s1,
    msm_cpufreq_cpu_callback CPU_DOWN_PREPARE 1 running = Ret NOTIFY_OK s1 /\
    (exists calls,
       trace (final (msm_cpufreq_target (policy_at 1 600) 900 CPUFREQ_RELATION_L s1))
       = trace s1 ++ calls /\
       set_rate_calls calls = []) /\
    (true = true -> true = true ->
     returned (msm_cpufreq_target (policy_at 1 600) 900 CPUFREQ_RELATION_L s1)
     = Some (- EFAULT)).
Proof.
  apply (down_prepare_gates_target (msm_board mhz) CPU_DOWN_PREPARE (policy_at 1 600) 900
           CPUFREQ_RELATION_L running).
  - left. reflexivity.
  - reflexivity.
Defined.

Lemma suspend_gates_every_cpu_witness :
  exists s1,
    msm_cpufreq_suspend (policy_at 0 600) running = Ret 0 s1 /\
    exists calls,
      trace (final (msm_cpufreq_target (policy_at 1 600) 900 CPUFREQ_RELATION_L s1))
      = trace s1 ++ calls /\
      set_rate_calls calls = [].
Proof.
  apply (suspend_gates_every_cpu (msm_board mhz) (policy_at 0 600) (policy_at 1 600) 900
           CPUFREQ_RELATION_L running).
  right. left. reflexivity.
Defined.

Lemma suspend_then_resume_witness :
  exists s1 s2,
    msm_cpufreq_suspend (policy_at 0 600) running = Ret 0 s1 /\
    msm_cpufreq_resume (policy_at 0 600) s1 = Ret 0 s2 /\
    forall c, cpufreq_suspend s2 c = cpufreq_suspend running c.
Proof.
  apply (suspend_then_resume (msm_board mhz) (policy_at 0 600) running).
  intros c _. reflexivity.
Defined.
